(** * K-means filter pruning: channel selection for one Conv2D layer

    A shallow embedding of [KMeansFilterPruning.run_pruning_for_conv2d_layer]
    (filter_pruning/kmeans_pruning.py) and the properties its specification
    states about the list of channels handed to the surgeon.

    The method runs in a monad over the [world]: the weights the layers
    hold, numpy's global random source, the standard output and the jobs of
    the surgeon; the state survives an exception, as in Python.

    What the method calls and the file does not contain are the fields of
    [externals]: the keep/prune split helper and the fuzz of the base class,
    KMeans and the distance of scikit-learn, the shuffle of numpy and the
    iteration order of the Python set.  What the proofs need of them is
    stated once, in [externals_ok] and [kmeans_ok], and every theorem names
    the part it relies on. *)

From stdpp Require Import base list sets gmap strings pretty.
From Stdlib Require Import ZArith Lia.

Local Open Scope Z_scope.

(** ** Exceptions and results *)

(** The exceptions the method can end in, by the line that raises them. *)
Inductive exn : Type :=
| IndexError_get_weights          (* line 29: [get_weights()[0]] of a layer without weights *)
| ValueError_unpack               (* line 30: the shape is not a 4-tuple *)
| ValueError_reshape              (* line 38: [reshape(0, -1)] *)
| Raised_by_apply_fuzz            (* line 40 *)
| Raised_by_fit                   (* line 41: [kmeans.fit] refuses or fails *)
| Raised_by_argmin                (* line 45: [pairwise_distances_argmin] on no rows *)
| IndexError_keep                 (* line 64: [channel_indices_to_keep[i]] out of range *)
| ValueError_count (msg : string) (* line 67: the count guard *).

Inductive result (A : Type) : Type :=
| Ok (a : A)
| Raise (e : exn).
Arguments Ok {A} a.
Arguments Raise {A} e.

(** Errors raised on lines 29-41: no cluster centre exists yet when they occur. *)
Definition raised_before_clusters (e : exn) : bool :=
  match e with
  | IndexError_get_weights | ValueError_unpack | ValueError_reshape
  | Raised_by_apply_fuzz | Raised_by_fit => true
  | _ => false
  end.

(** The count guard of lines 66-69 is what raised. *)
Definition is_count_mismatch {A} (r : result A) : bool :=
  match r with
  | Raise (ValueError_count _) => true
  | _ => false
  end.

(** ** Python lists *)

(** [l[:k]] for a Python integer [k]: a negative [k] counts from the end. *)
Definition slice_to (k : Z) (l : list nat) : list nat :=
  if k <? 0 then take (length l - Z.to_nat (- k)) l else take (Z.to_nat k) l.

(** [range(k)]. *)
Definition range (k : Z) : list nat := seq 0 (Z.to_nat k).

(** The loop of lines 63-64,
    [for i in range(diff): channel_indices_to_prune.append(channel_indices_to_keep[i])],
    over the indices still to visit. *)
Fixpoint append_kept (keep : list nat) (todo : list nat) (prune : list nat) : result (list nat) :=
  match todo with
  | [] => Ok prune
  | i :: todo' =>
      match keep !! i with
      | None => Raise IndexError_keep
      | Some c => append_kept keep todo' (prune ++ [c])
      end
  end.

(** ** Messages *)

Definition msg_greater : string :=
  "Number of selected channels for pruning is greater then number of clusters".
Definition msg_discarding : string := "Discarding a few pruneable channels".
Definition msg_less : string :=
  "Number of selected channels for pruning is less than the number of clusters".
Definition msg_adding (diff : Z) : string :=
  "Randomly adding " +:+ pretty diff +:+ " channels for pruning".
Definition msg_count (nb_of_clusters : Z) (n : nat) : string :=
  "Number of clusters " +:+ pretty nb_of_clusters +:+
  " is not equal with the selectedpruneable channels " +:+ pretty n.

Section Pruning.

(** [F]: the floating-point numbers of the weights.  [G]: the state of
    numpy's global random source, which the fuzz, KMeans and the shuffle
    all draw from. *)
Context {F G : Type}.

(** ** Arrays, layers, jobs *)

(** A numpy array in C order. *)
Record ndarray : Type := { shape : list nat; data : list F }.

(** A 2-D array as the list of its rows. *)
Definition matrix : Type := list (list F).

(** A Keras layer, as the reference the method and the surgeon hold; its
    weights live in the world. *)
Record layer : Type := { layer_name : string }.

(** A job of the surgeon: [add_job(job_name, job_layer, channels=job_channels)]. *)
Record job : Type := { job_name : string; job_layer : layer; job_channels : list nat }.

(** What a call can read or change: the weights the layers hold, the random
    source, the standard output and the jobs the surgeon holds. *)
Record world : Type := {
  layer_weights : layer → list ndarray;
  rng : G;
  stdout : list string;
  jobs : list job
}.

Record KMeansFilterPruning : Type := { _clustering_factor : F }.

(** ** The collaborators *)

Record externals : Type := {
  (* BasePruning._calculate_number_of_channels_to_keep(factor, nb_channels) *)
  _calculate_number_of_channels_to_keep : F → nat → Z * Z;
  (* BasePruning._apply_fuzz(x): the array after the call, in place *)
  _apply_fuzz : matrix → G → option matrix * G;
  (* cluster.KMeans(k, "k-means++").fit(x).cluster_centers_ *)
  kmeans_fit : Z → matrix → G → option matrix * G;
  (* [closer c y best]: row [y] is strictly nearer to [c] than row [best] *)
  closer : list F → list F → list F → bool;
  (* np.random.shuffle(l): the list after the call *)
  shuffle : list nat → G → list nat * G;
  (* set(l), as the sequence its iteration yields *)
  set_of : list nat → list nat;
  (* s.difference(t), as the sequence its iteration yields *)
  set_difference : list nat → list nat → list nat
}.

(** The Python set holds each element once and iterates in an order of its
    own; the shuffle permutes; the fuzz rewrites the entries of the array it
    is given and so keeps its rows. *)
Record externals_ok (E : externals) : Prop := {
  set_of_NoDup : ∀ l, NoDup (set_of E l);
  set_of_elem : ∀ l x, x ∈ set_of E l ↔ x ∈ l;
  set_difference_NoDup : ∀ s t, NoDup s → NoDup (set_difference E s t);
  set_difference_elem : ∀ s t x, x ∈ set_difference E s t ↔ x ∈ s ∧ x ∉ t;
  shuffle_perm : ∀ l g, (shuffle E l g).1 ≡ₚ l;
  apply_fuzz_rows : ∀ x g x' g', _apply_fuzz E x g = (Some x', g') → length x' = length x
}.

(** scikit-learn fits [k] clusters only when [1 <= k <= n_samples]. *)
Definition kmeans_ok (E : externals) : Prop :=
  ∀ k x g c g', kmeans_fit E k x g = (Some c, g') → 1 ≤ k ≤ Z.of_nat (length x).

(** ** The monad of the method: state that survives an exception *)

Definition M (A : Type) : Type := world → result A * world.

Definition ret {A} (a : A) : M A := λ w, (Ok a, w).
Definition raise {A} (e : exn) : M A := λ w, (Raise e, w).
Definition bind {A B} (m : M A) (k : A → M B) : M B :=
  λ w, match m w with
       | (Ok a, w') => k a w'
       | (Raise e, w') => (Raise e, w')
       end.
Definition lift {A} (r : result A) : M A := λ w, (r, w).

(** [layer.get_weights()]: the current weights of the layer, as arrays of
    their own. *)
Definition get_weights (l : layer) : M (list ndarray) := λ w, (Ok (layer_weights w l), w).

(** A call that draws from the random source and may raise [e]. *)
Definition draw {A} (e : exn) (f : G → option A * G) : M A :=
  λ w, let '(r, g) := f (rng w) in
       (match r with Some a => Ok a | None => Raise e end,
        {| layer_weights := layer_weights w; rng := g; stdout := stdout w; jobs := jobs w |}).

(** Modelled from the spec: [BasePruning._apply_fuzz] is not under src/.
    The spec has it perturb the entries of the flattened matrix it is given,
    with draws from the random source, and never write the perturbation to
    the layer's weights: the call returns the matrix as it stands
    afterwards, advances the random source and touches nothing else. *)
Definition apply_fuzz_to (f : matrix → G → option matrix * G) (x : matrix) : M matrix :=
  draw Raised_by_apply_fuzz (f x).

(** [np.random.shuffle(l)]: the list after the call. *)
Definition shuffled (f : G → list nat * G) : M (list nat) :=
  λ w, let '(l, g) := f (rng w) in
       (Ok l, {| layer_weights := layer_weights w; rng := g; stdout := stdout w; jobs := jobs w |}).

Definition print (s : string) : M unit :=
  λ w, (Ok tt, {| layer_weights := layer_weights w; rng := rng w;
                  stdout := stdout w ++ [s]; jobs := jobs w |}).

(** [surgeon.add_job(name, layer, channels=channels)]: the job is queued. *)
Definition add_job (name : string) (l : layer) (channels : list nat) : M unit :=
  λ w, (Ok tt, {| layer_weights := layer_weights w; rng := rng w; stdout := stdout w;
                  jobs := jobs w ++ [{| job_name := name; job_layer := l;
                                        job_channels := channels |}] |}).

#[global] Instance M_ret : MRet M := @ret.
#[global] Instance M_bind : MBind M := λ A B k m, bind m k.

(** ** Lines 29-51: from the layer to the keep and prune lists *)

(** [a.size]: the product of the dimensions. *)
Definition size (a : ndarray) : nat := foldr Nat.mul 1%nat (shape a).

(** [layer_weight_mtx.transpose(3, 0, 1, 2).reshape(nb_channels, -1)].  The
    entry of output channel [c] at position [p] of the other three axes
    sits at [p * nb_channels + c] of the C-ordered data, and row [c] of the
    result collects the entries of channel [c]; the [-1] stands for
    [size / nb_channels], which numpy cannot infer when [nb_channels] is 0. *)
Definition flatten_filters (a : ndarray) (nb_channels : nat) : result matrix :=
  if decide (nb_channels = 0%nat) then Raise ValueError_reshape
  else
    let features := (size a / nb_channels)%nat in
    Ok (map (λ c, omap (λ p, data a !! (p * nb_channels + c)%nat) (seq 0 features))
            (seq 0 nb_channels)).

(** [np.argmin] over the distances from [c] to the rows that follow row
    [best]: the first row that is nearest wins. *)
Fixpoint argmin_scan (E : externals) (c : list F)
    (best : nat) (best_row : list F) (i : nat) (y : matrix) : nat :=
  match y with
  | [] => best
  | r :: y' =>
      if closer E c r best_row then argmin_scan E c i r (S i) y'
      else argmin_scan E c best best_row (S i) y'
  end.

(** [metrics.pairwise_distances_argmin(x, y)]: for each row of [x] the index
    of the nearest row of [y]; both arrays need a row. *)
Definition pairwise_distances_argmin (E : externals) (x y : matrix) : result (list nat) :=
  match x, y with
  | _ :: _, r0 :: y' => Ok (map (λ c, argmin_scan E c 0%nat r0 1%nat y') x)
  | _, _ => Raise Raised_by_argmin
  end.

(** The locals the rest of the method reads after line 51. *)
Record selection : Type := {
  nb_of_clusters : Z;
  nb_channels : nat;
  channel_indices_to_prune : list nat;
  channel_indices_to_keep : list nat
}.

Definition select_channels (E : externals) (self : KMeansFilterPruning) (l : layer)
    : M selection :=
  weights ← get_weights l;
  layer_weight_mtx ← lift (match weights with
                           | [] => Raise IndexError_get_weights
                           | a :: _ => Ok a
                           end);
  nb_channels ← lift (match shape layer_weight_mtx with
                      | [height; width; input_channels; nb_channels] => Ok nb_channels
                      | _ => Raise ValueError_unpack
                      end);
  let nb_of_clusters :=
    (_calculate_number_of_channels_to_keep E (_clustering_factor self) nb_channels).1 in
  layer_weight_mtx_reshaped ← lift (flatten_filters layer_weight_mtx nb_channels);
  layer_weight_mtx_reshaped ← apply_fuzz_to (_apply_fuzz E) layer_weight_mtx_reshaped;
  cluster_centers ← draw Raised_by_fit (kmeans_fit E nb_of_clusters layer_weight_mtx_reshaped);
  closest_point_to_cluster_center_indices ←
    lift (pairwise_distances_argmin E cluster_centers layer_weight_mtx_reshaped);
  let channel_indices := set_of E (seq 0 (length layer_weight_mtx_reshaped)) in
  let channel_indices_to_keep := set_of E closest_point_to_cluster_center_indices in
  mret {| nb_of_clusters := nb_of_clusters;
          nb_channels := nb_channels;
          channel_indices_to_prune := set_difference E channel_indices channel_indices_to_keep;
          channel_indices_to_keep := channel_indices_to_keep |}.

(** ** Lines 54-64: count reconciliation *)

Definition reconcile (E : externals) (nb_of_clusters : Z)
    (channel_indices_to_prune channel_indices_to_keep : list nat) : M (list nat) :=
  if Z.of_nat (length channel_indices_to_prune) >? nb_of_clusters then
    print msg_greater;;
    print msg_discarding;;
    mret (slice_to nb_of_clusters channel_indices_to_prune)
  else if Z.of_nat (length channel_indices_to_prune) <? nb_of_clusters then
    print msg_less;;
    let diff := nb_of_clusters - Z.of_nat (length channel_indices_to_prune) in
    print (msg_adding diff);;
    channel_indices_to_keep ← shuffled (shuffle E channel_indices_to_keep);
    lift (append_kept channel_indices_to_keep (range diff) channel_indices_to_prune)
  else mret channel_indices_to_prune.

(** ** Lines 66-74: the count guard, the job and the returned count *)

Definition submit (l : layer) (nb_of_clusters : Z) (channel_indices_to_prune : list nat)
    : M Z :=
  if decide (Z.of_nat (length channel_indices_to_prune) ≠ nb_of_clusters) then
    raise (ValueError_count (msg_count nb_of_clusters (length channel_indices_to_prune)))
  else
    add_job "delete_channels" l channel_indices_to_prune;;
    mret (Z.of_nat (length channel_indices_to_prune)).

(** ** The method *)

Definition run_pruning_for_conv2d_layer (E : externals) (self : KMeansFilterPruning)
    (l : layer) : M Z :=
  s ← select_channels E self l;
  channel_indices_to_prune ←
    reconcile E (nb_of_clusters s) (channel_indices_to_prune s) (channel_indices_to_keep s);
  submit l (nb_of_clusters s) channel_indices_to_prune.

(** ** Vocabulary of the statements *)

(** In world [w] the kernel of layer [l] is 4-D with [n] output channels. *)
Definition kernel_of (w : world) (l : layer) (n : nat) : Prop :=
  ∃ a rest height width input_channels,
    layer_weights w l = a :: rest ∧ shape a = [height; width; input_channels; n].

(** The job line 72 submits. *)
Definition delete_channels (l : layer) (channels : list nat) : job :=
  {| job_name := "delete_channels"; job_layer := l; job_channels := channels |}.

(** The keep list and the prune list after line 51, over [n] channels. *)
Record split_ok (n : nat) (prune keep : list nat) : Prop := {
  split_NoDup_prune : NoDup prune;
  split_NoDup_keep : NoDup keep;
  split_keep_lt : ∀ c, c ∈ keep → (c < n)%nat;
  split_prune_elem : ∀ c, c ∈ prune ↔ (c < n)%nat ∧ c ∉ keep;
  split_length : (length prune + length keep = n)%nat
}.

(** What a call prints: nothing, or the two messages of the reconciliation
    branch it takes. *)
Definition branch_messages (out : list string) : Prop :=
  out = [] ∨ out = [msg_greater; msg_discarding] ∨ ∃ diff, out = [msg_less; msg_adding diff].

(** [m] leaves the weights of every layer as they are, and its outcome,
    the random source it leaves, what it prints and what it queues depend
    on the world it starts in through the weights of layer [l] and the
    random source only. *)
Definition seed_determined {A} (l : layer) (m : M A) : Prop :=
  ∀ w w', layer_weights w l = layer_weights w' l → rng w = rng w' →
    (m w).1 = (m w').1 ∧
    rng (m w).2 = rng (m w').2 ∧
    (layer_weights (m w).2 = layer_weights w ∧
     layer_weights (m w').2 = layer_weights w') ∧
    ∃ out js,
      (stdout (m w).2 = stdout w ++ out ∧ stdout (m w').2 = stdout w' ++ out) ∧
      (jobs (m w).2 = jobs w ++ js ∧ jobs (m w').2 = jobs w' ++ js).

End Pruning.

Arguments ndarray F : clear implicits.
Arguments matrix F : clear implicits.
Arguments world F G : clear implicits.
Arguments KMeansFilterPruning F : clear implicits.
Arguments externals F G : clear implicits.
Arguments M F G A : clear implicits.

(** ** A small instance of the collaborators

    Integer weights, a counter for the random source, a helper that takes
    the factor for the cluster count, a fuzz that changes nothing, a fit
    that takes the first [k] rows as cluster centres when
    [1 <= k <= n_samples] and refuses otherwise, the L1 distance, reversal
    as the shuffle and sets that iterate in the order of the list they are
    built from. *)

Definition l1_distance (a b : list Z) : Z :=
  foldr Z.add 0 (zip_with (λ x y, Z.abs (x - y)) a b).

Definition toy : externals Z nat := {|
  _calculate_number_of_channels_to_keep := λ factor n, (factor, Z.of_nat n - factor);
  _apply_fuzz := λ x g, (Some x, S g);
  kmeans_fit := λ k x g,
    if (k <? 1) || (Z.of_nat (length x) <? k) then (None, g)
    else (Some (take (Z.to_nat k) x), S g);
  closer := λ c y best, l1_distance c y <? l1_distance c best;
  shuffle := λ l g, (reverse l, S g);
  set_of := remove_dups;
  set_difference := list_difference
|}.

(** A 1x1x1x4 kernel: four filters of one weight each. *)
Definition kernel4 : ndarray Z := {| shape := [1; 1; 1; 4]%nat; data := [10; 20; 30; 40] |}.
Definition conv4 : layer := {| layer_name := "conv4" |}.
(** A kernel that lost an axis. *)
Definition kernel3d : ndarray Z := {| shape := [1; 1; 4]%nat; data := [10; 20; 30; 40] |}.
Definition conv3d : layer := {| layer_name := "conv3d" |}.
Definition pruner (k : Z) : KMeansFilterPruning Z := {| _clustering_factor := k |}.
Definition weights0 (l : layer) : list (ndarray Z) :=
  if decide (layer_name l = "conv3d") then [kernel3d] else [kernel4].
Definition world0 : world Z nat :=
  {| layer_weights := weights0; rng := 0%nat; stdout := []; jobs := [] |}.
(** The same weights and random source after an earlier call. *)
Definition world1 : world Z nat :=
  {| layer_weights := weights0; rng := 0%nat; stdout := ["earlier"];
     jobs := [delete_channels conv3d [0%nat]] |}.

(** A second instance, whose fit takes any cluster count and returns the
    first row as its one centre: with it the reconciliation is reached with
    counts that scikit-learn itself turns down. *)
Definition lax : externals Z nat := {|
  _calculate_number_of_channels_to_keep := λ factor n, (factor, Z.of_nat n - factor);
  _apply_fuzz := λ x g, (Some x, S g);
  kmeans_fit := λ k x g, (Some (take 1 x), S g);
  closer := λ c y best, l1_distance c y <? l1_distance c best;
  shuffle := λ l g, (reverse l, S g);
  set_of := remove_dups;
  set_difference := list_difference
|}.

(** A layer that holds no weights, beside the two of [world0]. *)
Definition activation : layer := {| layer_name := "activation" |}.
Definition weights2 (l : layer) : list (ndarray Z) :=
  if decide (layer_name l = "activation") then [] else weights0 l.
Definition world2 : world Z nat :=
  {| layer_weights := weights2; rng := 0%nat; stdout := []; jobs := [] |}.

(** A 1x2x1x2 kernel: two filters of two weights each, interleaved in the
    C-ordered data. *)
Definition kernel22 : ndarray Z := {| shape := [1; 2; 1; 2]%nat; data := [1; 2; 3; 4] |}.

(** ** The local array behind the flattened matrix

    Line 38 yields a view of [layer_weight_mtx], not a copy: [transpose]
    only permutes the axes, and the three trailing axes of the transposed
    array still merge into one, so numpy reshapes without copying.  Entry
    [p] of row [c] of [layer_weight_mtx_reshaped] is then the very entry
    [p * nb_channels + c] of the data of [layer_weight_mtx], and the fuzz of
    line 40, which rewrites the entries of the array it is given, writes
    through it.

    [seen_through a nb_channels x] is the array [a] once the rows of that
    view have been overwritten with the rows of [x]: position [i] of the
    data takes entry [i / nb_channels] of row [i mod nb_channels], and keeps
    its value where [x] has no such entry. *)
Definition seen_through {F} (a : ndarray F) (nb_channels : nat) (x : matrix F) : ndarray F :=
  {| shape := shape a;
     data := imap (λ i v, default v (x !! (i mod nb_channels)%nat
                                       ≫= (λ row, row !! (i / nb_channels)%nat)))
                  (data a) |}.

(** Lines 29-40 once more, followed to the local variable
    [layer_weight_mtx]: what that array holds when the fuzz has run. *)
Definition layer_weight_mtx_after_fuzz {F G} (E : externals F G)
    (self : KMeansFilterPruning F) (l : layer) : M F G (ndarray F) :=
  weights ← get_weights l;
  layer_weight_mtx ← lift (match weights with
                           | [] => Raise IndexError_get_weights
                           | a :: _ => Ok a
                           end);
  nb_channels ← lift (match shape layer_weight_mtx with
                      | [height; width; input_channels; nb_channels] => Ok nb_channels
                      | _ => Raise ValueError_unpack
                      end);
  layer_weight_mtx_reshaped ← lift (flatten_filters layer_weight_mtx nb_channels);
  layer_weight_mtx_reshaped ← apply_fuzz_to (_apply_fuzz E) layer_weight_mtx_reshaped;
  mret (seen_through layer_weight_mtx nb_channels layer_weight_mtx_reshaped).

(** A third instance, whose fuzz adds 1 to every entry; the rest is [toy]. *)
Definition jitter : externals Z nat := {|
  _calculate_number_of_channels_to_keep := λ factor n, (factor, Z.of_nat n - factor);
  _apply_fuzz := λ x g, (Some (map (map (Z.add 1)) x), S g);
  kmeans_fit := λ k x g,
    if (k <? 1) || (Z.of_nat (length x) <? k) then (None, g)
    else (Some (take (Z.to_nat k) x), S g);
  closer := λ c y best, l1_distance c y <? l1_distance c best;
  shuffle := λ l g, (reverse l, S g);
  set_of := remove_dups;
  set_difference := list_difference
|}.

(** A world whose layer [conv4] holds the 1x2x1x2 kernel. *)
Definition world3 : world Z nat :=
  {| layer_weights := λ _, [kernel22]; rng := 0%nat; stdout := []; jobs := [] |}.

(** * Properties *)

Section Facts.

Context {F G : Type} (E : externals F G).

(** ** The nearest-row search returns row indices *)

Lemma argmin_scan_lt (c : list F) (y : matrix F) :
  ∀ (best : nat) (best_row : list F) (i : nat),
    (best < i)%nat → (argmin_scan E c best best_row i y < i + length y)%nat.
Proof.
  induction y as [|r y IH]; intros best best_row i Hlt; simpl.
  - lia.
  - destruct (closer E c r best_row).
    + specialize (IH i r (S i)). lia.
    + specialize (IH best best_row (S i)). lia.
Qed.

Lemma pairwise_distances_argmin_lt (x y : matrix F) (closest : list nat) :
  pairwise_distances_argmin E x y = Ok closest →
  ∀ i, i ∈ closest → (i < length y)%nat.
Proof.
  unfold pairwise_distances_argmin.
  destruct x as [|c0 x]; [discriminate|].
  destruct y as [|r0 y]; [discriminate|].
  intros [= <-] i Hi.
  change (i ∈ map (λ c, argmin_scan E c 0%nat r0 1%nat y) (c0 :: x)) in Hi.
  apply list_elem_of_In, in_map_iff in Hi as [c [<- _]].
  pose proof (argmin_scan_lt c y 0%nat r0 1%nat). simpl in *. lia.
Qed.

Lemma flatten_filters_length (a : ndarray F) (n : nat) (x : matrix F) :
  flatten_filters a n = Ok x → length x = n.
Proof.
  unfold flatten_filters. case_decide; [discriminate|].
  intros [= <-]. by rewrite length_map, length_seq.
Qed.

(** ** The loop that appends kept channels *)

Lemma append_kept_seq (keep : list nat) (d : nat) :
  ∀ (i : nat) (prune : list nat),
    append_kept keep (seq i d) prune =
    if decide (i + d ≤ length keep)%nat then Ok (prune ++ take d (drop i keep))
    else if decide (d = 0)%nat then Ok prune else Raise IndexError_keep.
Proof.
  induction d as [|d IH]; intros i prune; simpl.
  - destruct (decide (i + 0 ≤ length keep)%nat); [by rewrite app_nil_r|done].
  - destruct (keep !! i) as [c|] eqn:Hi.
    + rewrite IH. apply lookup_lt_Some in Hi as Hlt.
      destruct (decide (S i + d ≤ length keep)%nat),
        (decide (i + S d ≤ length keep)%nat); try lia.
      * rewrite <- app_assoc, (drop_S _ _ _ Hi). done.
      * destruct (decide (d = 0%nat)); [lia|done].
    + apply lookup_ge_None in Hi.
      destruct (decide (i + S d ≤ length keep)%nat); [lia|done].
Qed.

Lemma append_kept_range (keep prune : list nat) (diff : Z) :
  (Z.to_nat diff ≤ length keep)%nat →
  append_kept keep (range diff) prune = Ok (prune ++ take (Z.to_nat diff) keep).
Proof.
  intros Hle. unfold range. rewrite append_kept_seq.
  destruct (decide (0 + Z.to_nat diff ≤ length keep)%nat); [done|lia].
Qed.

Lemma append_kept_Ok_length (keep prune out : list nat) (diff : Z) :
  append_kept keep (range diff) prune = Ok out →
  length out = (length prune + Z.to_nat diff)%nat.
Proof.
  unfold range. rewrite append_kept_seq.
  destruct (decide (0 + Z.to_nat diff ≤ length keep)%nat).
  - intros [= <-]. rewrite length_app, length_take, length_drop. lia.
  - destruct (decide (Z.to_nat diff = 0%nat)); intros [= <-]. lia.
Qed.

(** ** What a successful selection went through *)

Lemma select_channels_Ok (self : KMeansFilterPruning F) (l : layer)
    (w w1 : world F G) (s : selection) :
  select_channels E self l w = (Ok s, w1) →
  ∃ a rest height width input_channels x x' g1 centers g2 closest,
    layer_weights w l = a :: rest ∧
    shape a = [height; width; input_channels; nb_channels s] ∧
    nb_of_clusters s =
      (_calculate_number_of_channels_to_keep E (_clustering_factor self) (nb_channels s)).1 ∧
    flatten_filters a (nb_channels s) = Ok x ∧
    _apply_fuzz E x (rng w) = (Some x', g1) ∧
    kmeans_fit E (nb_of_clusters s) x' g1 = (Some centers, g2) ∧
    pairwise_distances_argmin E centers x' = Ok closest ∧
    channel_indices_to_keep s = set_of E closest ∧
    channel_indices_to_prune s =
      set_difference E (set_of E (seq 0 (length x'))) (set_of E closest) ∧
    w1 = {| layer_weights := layer_weights w; rng := g2;
            stdout := stdout w; jobs := jobs w |}.
Proof.
  unfold select_channels, mbind, M_bind, bind, get_weights, lift, apply_fuzz_to, draw,
    mret, M_ret, ret.
  intros H.
  destruct (layer_weights w l) as [|a rest] eqn:Hw; [discriminate|].
  destruct (shape a) as [|h [|wd [|ic [|n [|? ?]]]]] eqn:Hshape; try discriminate.
  destruct (flatten_filters a n) as [x|] eqn:Hx; [|discriminate].
  destruct (_apply_fuzz E x (rng w)) as [[x'|] g1] eqn:Hfuzz; [|discriminate].
  cbn [layer_weights rng stdout jobs] in H.
  destruct (kmeans_fit E _ x' g1) as [[centers|] g2] eqn:Hfit; [|discriminate].
  destruct (pairwise_distances_argmin E centers x') as [closest|] eqn:Hmin;
    [|discriminate].
  injection H as <- <-. cbn [nb_channels nb_of_clusters
    channel_indices_to_prune channel_indices_to_keep].
  by eexists a, rest, h, wd, ic, x, x', g1, centers, g2, closest.
Qed.

Lemma split_ok_intro (n : nat) (prune keep : list nat) :
  NoDup prune → NoDup keep →
  (∀ c, c ∈ keep → (c < n)%nat) →
  (∀ c, c ∈ prune ↔ (c < n)%nat ∧ c ∉ keep) →
  split_ok n prune keep.
Proof.
  intros Hp Hk Hlt Hel. split; try done.
  rewrite <- length_app, <- (length_seq n 0).
  apply Permutation_length, NoDup_Permutation.
  - apply NoDup_app. split_and!; [done| |done].
    intros c Hc. apply Hel in Hc. tauto.
  - apply NoDup_seq.
  - intros c. rewrite elem_of_app, elem_of_seq, Hel.
    split; [intros [[? _]|?%Hlt]; lia|].
    intros [_ ?]. destruct (decide (c ∈ keep)); [by right|left]. split; [lia|done].
Qed.

Lemma select_channels_split (self : KMeansFilterPruning F) (l : layer)
    (w w1 : world F G) (s : selection) :
  externals_ok E →
  select_channels E self l w = (Ok s, w1) →
  split_ok (nb_channels s) (channel_indices_to_prune s) (channel_indices_to_keep s).
Proof.
  intros HE (a & rest & h & wd & ic & x & x' & g1 & centers & g2 & closest &
    _ & _ & _ & Hx & Hfuzz & _ & Hmin & -> & -> & _)%select_channels_Ok.
  apply flatten_filters_length in Hx.
  apply (apply_fuzz_rows E HE) in Hfuzz. rewrite Hx in Hfuzz.
  pose proof (pairwise_distances_argmin_lt _ _ _ Hmin) as Hlt.
  rewrite Hfuzz in *.
  apply split_ok_intro.
  - apply (set_difference_NoDup E HE), (set_of_NoDup E HE).
  - apply (set_of_NoDup E HE).
  - intros c Hc. apply (proj1 (set_of_elem E HE _ _)) in Hc. by apply Hlt.
  - intros c. rewrite (set_difference_elem E HE), (set_of_elem E HE), elem_of_seq.
    split; intros [? ?]; (split; [lia|done]).
Qed.

(** ** The three branches of the reconciliation *)

Lemma reconcile_greater (k : Z) (prune keep : list nat) (w : world F G) :
  k < Z.of_nat (length prune) →
  reconcile E k prune keep w =
  (Ok (slice_to k prune),
   {| layer_weights := layer_weights w; rng := rng w;
      stdout := stdout w ++ [msg_greater; msg_discarding]; jobs := jobs w |}).
Proof.
  intros Hlt. unfold reconcile.
  rewrite (proj2 (Z.gtb_lt _ _) Hlt).
  unfold mbind, M_bind, bind, print, mret, M_ret, ret. simpl.
  by rewrite <- app_assoc.
Qed.

Lemma reconcile_less (k : Z) (prune keep : list nat) (w : world F G) :
  Z.of_nat (length prune) < k →
  reconcile E k prune keep w =
  (append_kept (shuffle E keep (rng w)).1 (range (k - Z.of_nat (length prune))) prune,
   {| layer_weights := layer_weights w;
      rng := (shuffle E keep (rng w)).2;
      stdout := stdout w ++ [msg_less; msg_adding (k - Z.of_nat (length prune))];
      jobs := jobs w |}).
Proof.
  intros Hlt. unfold reconcile.
  rewrite Z.gtb_ltb, (proj2 (Z.ltb_ge _ _)) by lia.
  rewrite (proj2 (Z.ltb_lt _ _) Hlt).
  unfold mbind, M_bind, bind, print, shuffled, lift. simpl.
  destruct (shuffle E keep (rng w)) as [keep' g']. simpl.
  by rewrite <- app_assoc.
Qed.

Lemma reconcile_equal (k : Z) (prune keep : list nat) (w : world F G) :
  Z.of_nat (length prune) = k →
  reconcile E k prune keep w = (Ok prune, w).
Proof.
  intros Heq. unfold reconcile.
  rewrite Z.gtb_ltb, !(proj2 (Z.ltb_ge _ _)) by lia. done.
Qed.

Lemma submit_equal (l : layer) (k : Z) (channels : list nat) (w : world F G) :
  Z.of_nat (length channels) = k →
  submit l k channels w =
  (Ok k, {| layer_weights := layer_weights w; rng := rng w; stdout := stdout w;
            jobs := jobs w ++ [delete_channels l channels] |}).
Proof.
  intros Heq. unfold submit. rewrite decide_False by (by intros ?).
  unfold mbind, M_bind, bind, add_job, mret, M_ret, ret. simpl. by rewrite Heq.
Qed.

Lemma submit_differ (l : layer) (k : Z) (channels : list nat) (w : world F G) :
  Z.of_nat (length channels) ≠ k →
  submit l k channels w =
  (Raise (ValueError_count (msg_count k (length channels))), w).
Proof. intros Hne. unfold submit. by rewrite decide_True. Qed.

Lemma run_select_Ok (self : KMeansFilterPruning F) (l : layer)
    (w w1 : world F G) (s : selection) :
  select_channels E self l w = (Ok s, w1) →
  run_pruning_for_conv2d_layer E self l w =
  match reconcile E (nb_of_clusters s) (channel_indices_to_prune s)
          (channel_indices_to_keep s) w1 with
  | (Ok channels, w2) => submit l (nb_of_clusters s) channels w2
  | (Raise e, w2) => (Raise e, w2)
  end.
Proof.
  intros Hs. unfold run_pruning_for_conv2d_layer, mbind, M_bind, bind.
  by rewrite Hs.
Qed.

Lemma run_select_Raise (self : KMeansFilterPruning F) (l : layer)
    (w w1 : world F G) (e : exn) :
  select_channels E self l w = (Raise e, w1) →
  run_pruning_for_conv2d_layer E self l w = (Raise e, w1).
Proof.
  intros Hs. unfold run_pruning_for_conv2d_layer, mbind, M_bind, bind.
  by rewrite Hs.
Qed.

(** ** What the reconciliation returns *)

Lemma slice_to_nonneg (k : Z) (l : list nat) :
  0 ≤ k → slice_to k l = take (Z.to_nat k) l.
Proof. intros Hk. unfold slice_to. by rewrite (proj2 (Z.ltb_ge _ _)). Qed.

Lemma reconcile_less_spec (n : nat) (k : Z) (prune keep : list nat) (w : world F G) :
  externals_ok E →
  split_ok n prune keep →
  Z.of_nat (length prune) < k ≤ Z.of_nat n →
  let added := take (Z.to_nat (k - Z.of_nat (length prune))) (shuffle E keep (rng w)).1 in
  reconcile E k prune keep w =
    (Ok (prune ++ added),
     {| layer_weights := layer_weights w;
        rng := (shuffle E keep (rng w)).2;
        stdout := stdout w ++ [msg_less; msg_adding (k - Z.of_nat (length prune))];
        jobs := jobs w |}) ∧
  Z.of_nat (length (prune ++ added)) = k ∧
  NoDup added ∧
  (∀ c, c ∈ added → c ∈ keep).
Proof.
  intros HE Hsplit [Hlt Hle] added.
  pose proof (shuffle_perm E HE keep (rng w)) as Hperm.
  pose proof (split_length _ _ _ Hsplit) as Hlen.
  pose proof (Permutation_length Hperm) as Hlen'.
  split_and!.
  - rewrite reconcile_less by done. by rewrite append_kept_range by lia.
  - unfold added. rewrite length_app, length_take. lia.
  - eapply sublist_NoDup; [|apply sublist_take].
    rewrite Hperm. by destruct Hsplit.
  - intros c Hc%subseteq_take. by rewrite <- Hperm.
Qed.

Lemma reconcile_spec (n : nat) (k : Z) (prune keep : list nat) (w : world F G) :
  externals_ok E →
  split_ok n prune keep →
  0 ≤ k ≤ Z.of_nat n →
  ∃ channels w',
    reconcile E k prune keep w = (Ok channels, w') ∧
    jobs w' = jobs w ∧
    Z.of_nat (length channels) = k ∧
    NoDup channels ∧
    (∀ c, c ∈ channels → (c < n)%nat).
Proof.
  intros HE Hsplit [H0 Hn].
  destruct (Z.lt_total k (Z.of_nat (length prune))) as [Hgt|[Heq|Hlt]].
  - eexists _, _. rewrite reconcile_greater, slice_to_nonneg by done.
    split_and!; [done|done| | |].
    + rewrite length_take. lia.
    + eapply sublist_NoDup; [|apply sublist_take]. by destruct Hsplit.
    + intros c Hc%subseteq_take. by apply (split_prune_elem _ _ _ Hsplit) in Hc as [? _].
  - eexists _, _. rewrite reconcile_equal by done.
    split_and!; [done|done|done|by destruct Hsplit|].
    intros c Hc. by apply (split_prune_elem _ _ _ Hsplit) in Hc as [? _].
  - destruct (reconcile_less_spec n k prune keep w HE Hsplit) as (-> & Hlen & Hnd & Hin);
      [lia|].
    eexists _, _. split_and!; [done|done|done| |].
    + apply NoDup_app. split_and!; [by destruct Hsplit| |done].
      intros c Hc Hc'%Hin. by apply (split_prune_elem _ _ _ Hsplit) in Hc as [_ ?].
    + intros c [Hc|Hc%Hin]%elem_of_app.
      * by apply (split_prune_elem _ _ _ Hsplit) in Hc as [? _].
      * by apply (split_keep_lt _ _ _ Hsplit).
Qed.

(** The reconciliation raises nothing but the [IndexError] of line 64, and
    what it returns has the requested length when that is not negative. *)
Lemma reconcile_Raise (k : Z) (prune keep : list nat) (w w' : world F G) (e : exn) :
  reconcile E k prune keep w = (Raise e, w') → e = IndexError_keep.
Proof.
  destruct (Z.lt_total k (Z.of_nat (length prune))) as [Hgt|[Heq|Hlt]].
  - by rewrite reconcile_greater.
  - by rewrite reconcile_equal.
  - rewrite reconcile_less by done. unfold range. rewrite append_kept_seq.
    repeat case_decide; congruence.
Qed.

Lemma reconcile_Ok_length (k : Z) (prune keep channels : list nat) (w w' : world F G) :
  0 ≤ k →
  reconcile E k prune keep w = (Ok channels, w') →
  Z.of_nat (length channels) = k.
Proof.
  intros Hk.
  destruct (Z.lt_total k (Z.of_nat (length prune))) as [Hgt|[Heq|Hlt]].
  - rewrite reconcile_greater, slice_to_nonneg by done. intros [= <- _].
    rewrite length_take. lia.
  - rewrite reconcile_equal by done. by intros [= <- _].
  - rewrite reconcile_less by done. intros [= Happ _].
    apply append_kept_Ok_length in Happ. lia.
Qed.

(** ** The selection and the world *)

Lemma select_channels_world (self : KMeansFilterPruning F) (l : layer)
    (w w1 : world F G) (s : selection) :
  select_channels E self l w = (Ok s, w1) →
  layer_weights w1 = layer_weights w ∧ stdout w1 = stdout w ∧ jobs w1 = jobs w.
Proof.
  intros (a & rest & h & wd & ic & x & x' & g1 & centers & g2 & closest &
    _ & _ & _ & _ & _ & _ & _ & _ & _ & ->)%select_channels_Ok. by repeat split.
Qed.

Lemma select_channels_kernel (self : KMeansFilterPruning F) (l : layer)
    (w w1 : world F G) (s : selection) :
  select_channels E self l w = (Ok s, w1) →
  kernel_of w l (nb_channels s) ∧
  nb_of_clusters s =
    (_calculate_number_of_channels_to_keep E (_clustering_factor self) (nb_channels s)).1.
Proof.
  intros (a & rest & h & wd & ic & x & x' & g1 & centers & g2 & closest &
    Hw & Hs & Hk & _)%select_channels_Ok.
  split; [|done]. by exists a, rest, h, wd, ic.
Qed.

Lemma kernel_of_inj (w : world F G) (l : layer) (n m : nat) :
  kernel_of w l n → kernel_of w l m → n = m.
Proof.
  intros (a & rest & h & wd & ic & Hw & Hs) (a' & rest' & h' & wd' & ic' & Hw' & Hs').
  congruence.
Qed.

Lemma select_channels_positive (self : KMeansFilterPruning F) (l : layer)
    (w w1 : world F G) (s : selection) :
  kmeans_ok E →
  select_channels E self l w = (Ok s, w1) →
  1 ≤ nb_of_clusters s.
Proof.
  intros HK (a & rest & h & wd & ic & x & x' & g1 & centers & g2 & closest &
    _ & _ & _ & _ & _ & Hfit & _)%select_channels_Ok.
  apply HK in Hfit. lia.
Qed.

Lemma select_channels_range (self : KMeansFilterPruning F) (l : layer)
    (w w1 : world F G) (s : selection) :
  externals_ok E → kmeans_ok E →
  select_channels E self l w = (Ok s, w1) →
  1 ≤ nb_of_clusters s ≤ Z.of_nat (nb_channels s).
Proof.
  intros HE HK (a & rest & h & wd & ic & x & x' & g1 & centers & g2 & closest &
    _ & _ & _ & Hx & Hfuzz & Hfit & _)%select_channels_Ok.
  apply flatten_filters_length in Hx.
  apply (apply_fuzz_rows E HE) in Hfuzz.
  apply HK in Hfit. lia.
Qed.

(** Whatever the selection raises, it is not the count guard's error, and
    nothing was printed or queued. *)
Lemma select_channels_Raise (self : KMeansFilterPruning F) (l : layer)
    (w w1 : world F G) (e : exn) :
  select_channels E self l w = (Raise e, w1) →
  (raised_before_clusters e = true ∨ e = Raised_by_argmin) ∧
  layer_weights w1 = layer_weights w ∧ stdout w1 = stdout w ∧ jobs w1 = jobs w.
Proof.
  unfold select_channels, mbind, M_bind, bind, get_weights, lift, apply_fuzz_to, draw,
    mret, M_ret, ret.
  intros H.
  destruct (layer_weights w l) as [|a rest]; [by injection H as <- <-; auto|].
  destruct (shape a) as [|h [|wd [|ic [|n [|? ?]]]]];
    try by (injection H as <- <-; auto).
  destruct (flatten_filters a n) as [x|e'] eqn:Hx.
  2:{ unfold flatten_filters in Hx. case_decide; [|done].
      injection Hx as <-. by injection H as <- <-; auto. }
  destruct (_apply_fuzz E x (rng w)) as [[x'|] g1]; [|by injection H as <- <-; auto].
  cbn [layer_weights rng stdout jobs] in H.
  destruct (kmeans_fit E _ x' g1) as [[centers|] g2];
    [|by injection H as <- <-; auto].
  destruct (pairwise_distances_argmin E centers x') as [closest|e'] eqn:Hmin;
    [done|].
  injection H as <- <-. split; [right|by repeat split].
  unfold pairwise_distances_argmin in Hmin.
  destruct centers, x'; congruence.
Qed.

(** What the reconciliation does to the world: nothing to the weights and
    the jobs, and the two messages of the branch it takes on the output. *)
Lemma reconcile_world (k : Z) (prune keep : list nat) (w w' : world F G)
    (r : result (list nat)) :
  reconcile E k prune keep w = (r, w') →
  layer_weights w' = layer_weights w ∧ jobs w' = jobs w ∧
  ∃ out, stdout w' = stdout w ++ out ∧ branch_messages out.
Proof.
  unfold branch_messages.
  destruct (Z.lt_total k (Z.of_nat (length prune))) as [Hgt|[Heq|Hlt]].
  - rewrite reconcile_greater by done. intros [= _ <-]. simpl.
    split_and!; [done|done|]. eexists. split; [done|]. by right; left.
  - rewrite reconcile_equal by done. intros [= _ <-].
    split_and!; [done|done|]. exists []. rewrite app_nil_r. split; [done|]. by left.
  - rewrite reconcile_less by done. intros [= _ <-]. simpl.
    split_and!; [done|done|]. eexists. split; [done|]. right; right. by eexists.
Qed.

(** ** Rejection on lines 29-41 *)

Lemma select_channels_refused (self : KMeansFilterPruning F) (l : layer)
    (w : world F G) (n : nat) :
  kernel_of w l n →
  let k := (_calculate_number_of_channels_to_keep E (_clustering_factor self) n).1 in
  (∀ x x' g1 c g2, length x = n → _apply_fuzz E x (rng w) = (Some x', g1) →
                   kmeans_fit E k x' g1 = (Some c, g2) → False) →
  ∃ e w1,
    select_channels E self l w = (Raise e, w1) ∧
    raised_before_clusters e = true ∧
    stdout w1 = stdout w ∧ jobs w1 = jobs w.
Proof.
  intros (a & rest & h & wd & ic & Hw & Hshape) k Hno.
  unfold select_channels, mbind, M_bind, bind, get_weights, lift, apply_fuzz_to, draw,
    mret, M_ret, ret.
  rewrite Hw, Hshape. fold k.
  destruct (flatten_filters a n) as [x|e'] eqn:Hx.
  2:{ unfold flatten_filters in Hx. case_decide; [|done].
      injection Hx as <-. by eexists _, _. }
  apply flatten_filters_length in Hx.
  destruct (_apply_fuzz E x (rng w)) as [[x'|] g1] eqn:Hfuzz; [|by eexists _, _].
  cbn [layer_weights rng stdout jobs].
  destruct (kmeans_fit E k x' g1) as [[centers|] g2] eqn:Hfit; [|by eexists _, _].
  destruct (Hno _ _ _ _ _ Hx Hfuzz Hfit).
Qed.

(** ** Dependence on the weights and the random source only *)

Lemma seed_determined_bind {A B} (l : layer) (m : M F G A) (k : A → M F G B) :
  seed_determined l m → (∀ a, seed_determined l (k a)) → seed_determined l (m ≫= k).
Proof.
  intros Hm Hk w w' Hw Hrng. unfold mbind, M_bind, bind.
  destruct (Hm w w' Hw Hrng) as (Hr & Hg & [Hl Hl'] & out & js & [Ho Ho'] & [Hj Hj']).
  destruct (m w) as [[a|e] w1], (m w') as [[a'|e'] w1']; simpl in *; try discriminate.
  - injection Hr as <-.
    assert (layer_weights w1 l = layer_weights w1' l) as Hw1 by (by rewrite Hl, Hl').
    destruct (Hk a w1 w1' Hw1 Hg)
      as (Hr2 & Hg2 & [Hl2 Hl2'] & out2 & js2 & [Ho2 Ho2'] & [Hj2 Hj2']).
    split_and!; [done|done|by rewrite Hl2|by rewrite Hl2'|].
    exists (out ++ out2), (js ++ js2).
    rewrite Ho2, Ho2', Hj2, Hj2', Ho, Ho', Hj, Hj', !app_assoc. by repeat split.
  - injection Hr as ->. split_and!; [done|done|done|done|]. by exists out, js.
Qed.

Lemma seed_determined_lift {A} (l : layer) (r : result A) :
  seed_determined l (lift (G:=G) (F:=F) r).
Proof.
  intros w w' Hw Hrng. unfold lift. simpl. split_and!; [done|done|done|done|].
  exists [], []. rewrite !app_nil_r. by repeat split.
Qed.

Lemma seed_determined_get_weights (l : layer) :
  seed_determined l (get_weights (G:=G) (F:=F) l).
Proof.
  intros w w' Hw Hrng. unfold get_weights. simpl. rewrite Hw.
  split_and!; [done|done|done|done|].
  exists [], []. rewrite !app_nil_r. by repeat split.
Qed.

Lemma seed_determined_draw {A} (l : layer) (e : exn) (f : G → option A * G) :
  seed_determined l (draw (F:=F) e f).
Proof.
  intros w w' Hw Hrng. unfold draw. rewrite Hrng. destruct (f (rng w')) as [r g].
  simpl. split_and!; [done|done|done|done|].
  exists [], []. rewrite !app_nil_r. by repeat split.
Qed.

Lemma seed_determined_shuffled (l : layer) (f : G → list nat * G) :
  seed_determined l (shuffled (F:=F) f).
Proof.
  intros w w' Hw Hrng. unfold shuffled. rewrite Hrng. destruct (f (rng w')) as [r g].
  simpl. split_and!; [done|done|done|done|].
  exists [], []. rewrite !app_nil_r. by repeat split.
Qed.

Lemma seed_determined_print (l : layer) (msg : string) :
  seed_determined l (print (G:=G) (F:=F) msg).
Proof.
  intros w w' Hw Hrng. unfold print. simpl. split_and!; [done|done|done|done|].
  exists [msg], []. rewrite !app_nil_r. by repeat split.
Qed.

Lemma seed_determined_add_job (l l' : layer) (name : string) (channels : list nat) :
  seed_determined l (add_job (G:=G) (F:=F) name l' channels).
Proof.
  intros w w' Hw Hrng. unfold add_job. simpl. split_and!; [done|done|done|done|].
  eexists [], [_]. rewrite !app_nil_r. by repeat split.
Qed.

Lemma seed_determined_run (self : KMeansFilterPruning F) (l : layer) :
  seed_determined l (run_pruning_for_conv2d_layer E self l).
Proof.
  unfold run_pruning_for_conv2d_layer.
  apply seed_determined_bind.
  { unfold select_channels, apply_fuzz_to.
    apply seed_determined_bind; [apply seed_determined_get_weights|intros ?].
    repeat (apply seed_determined_bind;
            [first [apply seed_determined_lift | apply seed_determined_draw]
            |intros ?]).
    apply (seed_determined_lift l (Ok _)). }
  intros s. apply seed_determined_bind.
  { unfold reconcile. repeat case_match.
    - repeat (apply seed_determined_bind; [apply seed_determined_print|intros ?]).
      apply (seed_determined_lift l (Ok _)).
    - repeat (apply seed_determined_bind; [apply seed_determined_print|intros ?]).
      apply seed_determined_bind; [apply seed_determined_shuffled|intros ?].
      apply seed_determined_lift.
    - apply (seed_determined_lift l (Ok _)). }
  intros channels. unfold submit. case_decide.
  - apply (seed_determined_lift l (Raise _)).
  - apply seed_determined_bind; [apply seed_determined_add_job|intros ?].
    apply (seed_determined_lift l (Ok _)).
Qed.

(** * The claims *)

(** C1.  A call on a kernel with [n] output channels whose derived cluster
    count [k] has [0 <= k <= n], and whose clustering went through, returns,
    and the channel list it submits to the surgeon has exactly [k] elements,
    all distinct, each in [[0, n)]. *)
Theorem submitted_channels_exact (self : KMeansFilterPruning F) (l : layer)
    (w w1 : world F G) (s : selection) (n : nat) :
  externals_ok E →
  kernel_of w l n →
  let k := (_calculate_number_of_channels_to_keep E (_clustering_factor self) n).1 in
  0 ≤ k ≤ Z.of_nat n →
  select_channels E self l w = (Ok s, w1) →
  ∃ channels w2,
    run_pruning_for_conv2d_layer E self l w = (Ok k, w2) ∧
    jobs w2 = jobs w ++ [delete_channels l channels] ∧
    Z.of_nat (length channels) = k ∧
    NoDup channels ∧
    (∀ c, c ∈ channels → (c < n)%nat).
Proof.
  intros HE Hker k Hk Hs.
  destruct (select_channels_kernel _ _ _ _ _ Hs) as [Hker' Hk'].
  pose proof (kernel_of_inj _ _ _ _ Hker' Hker) as Hn.
  rewrite Hn in Hk'. fold k in Hk'.
  pose proof (select_channels_split _ _ _ _ _ HE Hs) as Hsplit.
  rewrite Hn in Hsplit.
  destruct (select_channels_world _ _ _ _ _ Hs) as (_ & _ & Hjobs).
  destruct (reconcile_spec n k _ _ w1 HE Hsplit Hk)
    as (channels & w2 & Hrec & Hjobs2 & Hlen & Hnd & Hlt).
  exists channels. eexists.
  rewrite (run_select_Ok _ _ _ _ _ Hs), Hk', Hrec, submit_equal by done.
  split_and!; [done| |done|done|done].
  simpl. by rewrite Hjobs2, Hjobs.
Qed.

(** C3, as the code has it.  On a 4-D kernel a cluster count of 0 is
    refused: the call raises on lines 38-41, by the fit at the latest,
    prints nothing and queues no job. *)
Theorem zero_clusters_rejected (self : KMeansFilterPruning F) (l : layer)
    (w : world F G) (n : nat) :
  kmeans_ok E →
  kernel_of w l n →
  (_calculate_number_of_channels_to_keep E (_clustering_factor self) n).1 = 0 →
  ∃ e w',
    run_pruning_for_conv2d_layer E self l w = (Raise e, w') ∧
    raised_before_clusters e = true ∧
    stdout w' = stdout w ∧ jobs w' = jobs w.
Proof.
  intros HK Hker Hk.
  destruct (select_channels_refused self l w n Hker) as (e & w1 & Hs & He & Hw).
  - intros x x' g1 c g2 _ _ Hfit. apply HK in Hfit. lia.
  - exists e, w1. by rewrite (run_select_Raise _ _ _ _ _ Hs).
Qed.

(** What a call does to the world: it leaves the weights of every layer
    as they are, prints nothing or the two messages of one reconciliation
    branch, and queues the one [delete_channels] job when it returns and
    nothing when it raises. *)
Lemma run_world (self : KMeansFilterPruning F) (l : layer) (w : world F G) :
  layer_weights (run_pruning_for_conv2d_layer E self l w).2 = layer_weights w ∧
  (∃ out,
     stdout (run_pruning_for_conv2d_layer E self l w).2 = stdout w ++ out ∧
     branch_messages out) ∧
  match (run_pruning_for_conv2d_layer E self l w).1 with
  | Ok k =>
      ∃ channels,
        jobs (run_pruning_for_conv2d_layer E self l w).2 =
        jobs w ++ [delete_channels l channels]
  | Raise _ => jobs (run_pruning_for_conv2d_layer E self l w).2 = jobs w
  end.
Proof.
  destruct (select_channels E self l w) as [[s|e] w1] eqn:Hs.
  - rewrite (run_select_Ok _ _ _ _ _ Hs).
    destruct (select_channels_world _ _ _ _ _ Hs) as (Hl & Ho & Hj).
    destruct (reconcile E _ _ _ w1) as [[channels|e] w2] eqn:Hrec;
      apply reconcile_world in Hrec as (Hl2 & Hj2 & out & Ho2 & Hout).
    + destruct (decide (Z.of_nat (length channels) = nb_of_clusters s)) as [Heq|Hne].
      * rewrite submit_equal by done. simpl.
        split_and!; [by rewrite Hl2|exists out; by rewrite Ho2, Ho|].
        exists channels. by rewrite Hj2, Hj.
      * rewrite submit_differ by done. simpl.
        split_and!; [by rewrite Hl2|exists out; by rewrite Ho2, Ho|by rewrite Hj2].
    + simpl. split_and!; [by rewrite Hl2|exists out; by rewrite Ho2, Ho|by rewrite Hj2].
  - rewrite (run_select_Raise _ _ _ _ _ Hs).
    apply select_channels_Raise in Hs as (_ & Hl & Ho & Hj). simpl.
    split_and!; [done| |done]. exists []. rewrite app_nil_r. split; [done|by left].
Qed.

(** C5.  On a kernel with [n] output channels and a cluster count [k] with
    [0 < k <= n] the count guard of lines 66-69 never fires: however the
    call ends, it does not end in that error. *)
Theorem count_guard_unreachable (self : KMeansFilterPruning F) (l : layer)
    (w : world F G) (n : nat) :
  kernel_of w l n →
  0 < (_calculate_number_of_channels_to_keep E (_clustering_factor self) n).1 ≤ Z.of_nat n →
  is_count_mismatch (run_pruning_for_conv2d_layer E self l w).1 = false.
Proof.
  intros Hker Hk.
  destruct (select_channels E self l w) as [[s|e] w1] eqn:Hs.
  - destruct (select_channels_kernel _ _ _ _ _ Hs) as [Hker' Hk'].
    rewrite (kernel_of_inj _ _ _ _ Hker' Hker) in Hk'.
    rewrite (run_select_Ok _ _ _ _ _ Hs).
    destruct (reconcile E _ _ _ w1) as [[channels|e] w2] eqn:Hrec.
    + apply reconcile_Ok_length in Hrec; [|lia].
      by rewrite submit_equal.
    + by apply reconcile_Raise in Hrec as ->.
  - rewrite (run_select_Raise _ _ _ _ _ Hs).
    apply select_channels_Raise in Hs as [[He| ->] _]; [|done].
    by destruct e.
Qed.

(** C6.  When the initial prune list has more than [k] entries, the call
    submits its first [k] entries, in the order the list has, and draws
    nothing from the random source for it; the entries past the first [k]
    are in no submitted list. *)
Theorem surplus_truncated (self : KMeansFilterPruning F) (l : layer)
    (w w1 : world F G) (s : selection) :
  externals_ok E → kmeans_ok E →
  select_channels E self l w = (Ok s, w1) →
  nb_of_clusters s < Z.of_nat (length (channel_indices_to_prune s)) →
  let k := Z.to_nat (nb_of_clusters s) in
  run_pruning_for_conv2d_layer E self l w =
    (Ok (nb_of_clusters s),
     {| layer_weights := layer_weights w;
        rng := rng w1;
        stdout := stdout w ++ [msg_greater; msg_discarding];
        jobs := jobs w ++ [delete_channels l (take k (channel_indices_to_prune s))] |}) ∧
  length (take k (channel_indices_to_prune s)) = k ∧
  (∀ c, c ∈ drop k (channel_indices_to_prune s) →
        c ∉ take k (channel_indices_to_prune s)).
Proof.
  intros HE HK Hs Hgt k.
  pose proof (select_channels_positive _ _ _ _ _ HK Hs) as Hpos.
  pose proof (select_channels_split _ _ _ _ _ HE Hs) as Hsplit.
  destruct (select_channels_world _ _ _ _ _ Hs) as (Hl & Hout & Hjobs).
  assert (length (take k (channel_indices_to_prune s)) = k) as Hlen
    by (rewrite length_take; lia).
  split_and!; [|done|].
  - rewrite (run_select_Ok _ _ _ _ _ Hs), reconcile_greater, slice_to_nonneg by lia.
    rewrite submit_equal by (fold k; lia). simpl. by rewrite Hl, Hout, Hjobs.
  - intros c Hdrop Htake.
    pose proof (split_NoDup_prune _ _ _ Hsplit) as Hnd.
    rewrite <- (take_drop k (channel_indices_to_prune s)) in Hnd.
    apply NoDup_app in Hnd as (_ & Hdisj & _). by apply (Hdisj c).
Qed.

(** C7.  When the initial prune list has fewer than [k] entries, the call
    appends the first [k - len] entries of the shuffled keep list: each was
    in the keep list, none occurs twice, none was in the prune list, and the
    list reaches exactly [k] entries; the call prints its two messages and
    returns. *)
Theorem shortfall_filled (self : KMeansFilterPruning F) (l : layer)
    (w w1 : world F G) (s : selection) :
  externals_ok E → kmeans_ok E →
  select_channels E self l w = (Ok s, w1) →
  Z.of_nat (length (channel_indices_to_prune s)) < nb_of_clusters s →
  let diff := nb_of_clusters s - Z.of_nat (length (channel_indices_to_prune s)) in
  let added := take (Z.to_nat diff) (shuffle E (channel_indices_to_keep s) (rng w1)).1 in
  run_pruning_for_conv2d_layer E self l w =
    (Ok (nb_of_clusters s),
     {| layer_weights := layer_weights w;
        rng := (shuffle E (channel_indices_to_keep s) (rng w1)).2;
        stdout := stdout w ++ [msg_less; msg_adding diff];
        jobs := jobs w ++ [delete_channels l (channel_indices_to_prune s ++ added)] |}) ∧
  Z.of_nat (length (channel_indices_to_prune s ++ added)) = nb_of_clusters s ∧
  Z.of_nat (length added) = diff ∧
  NoDup added ∧
  (∀ c, c ∈ added → c ∈ channel_indices_to_keep s) ∧
  (∀ c, c ∈ added → c ∉ channel_indices_to_prune s).
Proof.
  intros HE HK Hs Hlt diff added.
  pose proof (select_channels_range _ _ _ _ _ HE HK Hs) as Hrange.
  pose proof (select_channels_split _ _ _ _ _ HE Hs) as Hsplit.
  destruct (select_channels_world _ _ _ _ _ Hs) as (Hl & Hout & Hjobs).
  destruct (reconcile_less_spec _ _ _ _ w1 HE Hsplit (conj Hlt (proj2 Hrange)))
    as (Hrec & Hlen & Hnd & Hin).
  fold diff in Hrec, Hlen, Hnd, Hin. fold added in Hrec, Hlen, Hnd, Hin.
  split_and!; [|done| |done|done|].
  - rewrite (run_select_Ok _ _ _ _ _ Hs), Hrec, submit_equal by done.
    simpl. by rewrite Hl, Hout, Hjobs.
  - rewrite length_app in Hlen. lia.
  - intros c Hc%Hin Hp. by apply (split_prune_elem _ _ _ Hsplit) in Hp as [_ ?].
Qed.

(** C8.  Two calls on the same layer with the same clustering factor, from
    worlds in which the layer holds the same weights and the random source
    is in the same state, end alike: the same result, the same jobs
    submitted (so the same channel list), the same messages and the same
    state of the random source, whatever else differs between the two
    worlds. *)
Theorem same_seed_same_channels (self : KMeansFilterPruning F) (l : layer)
    (w w' : world F G) :
  layer_weights w l = layer_weights w' l →
  rng w = rng w' →
  (run_pruning_for_conv2d_layer E self l w).1 =
    (run_pruning_for_conv2d_layer E self l w').1 ∧
  rng (run_pruning_for_conv2d_layer E self l w).2 =
    rng (run_pruning_for_conv2d_layer E self l w').2 ∧
  ∃ out submitted,
    (stdout (run_pruning_for_conv2d_layer E self l w).2 = stdout w ++ out ∧
     stdout (run_pruning_for_conv2d_layer E self l w').2 = stdout w' ++ out) ∧
    (jobs (run_pruning_for_conv2d_layer E self l w).2 = jobs w ++ submitted ∧
     jobs (run_pruning_for_conv2d_layer E self l w').2 = jobs w' ++ submitted).
Proof.
  intros Hw Hrng.
  destruct (seed_determined_run self l w w' Hw Hrng) as (Hr & Hg & _ & Hrest).
  by split_and!.
Qed.

(** C9.  After line 51, before the reconciliation, the keep set and the
    prune set partition the channel indices of the kernel: their union is
    [{0 .. n-1}] and they share no element. *)
Theorem keep_prune_partition (self : KMeansFilterPruning F) (l : layer)
    (w w1 : world F G) (s : selection) (n : nat) :
  externals_ok E →
  kernel_of w l n →
  select_channels E self l w = (Ok s, w1) →
  list_to_set (channel_indices_to_keep s) ∪ list_to_set (channel_indices_to_prune s)
    = (set_seq 0 n : gset nat) ∧
  list_to_set (channel_indices_to_keep s) ∩ list_to_set (channel_indices_to_prune s)
    = (∅ : gset nat).
Proof.
  intros HE Hker Hs.
  destruct (select_channels_kernel _ _ _ _ _ Hs) as [Hker' _].
  pose proof (select_channels_split _ _ _ _ _ HE Hs) as Hsplit.
  rewrite (kernel_of_inj _ _ _ _ Hker' Hker) in Hsplit.
  destruct Hsplit as [_ _ Hlt Hel _].
  split; apply set_eq; intros c.
  - rewrite elem_of_union, !elem_of_list_to_set, elem_of_set_seq, Hel.
    split; [intros [?%Hlt|[? _]]; lia|].
    intros [_ ?]. destruct (decide (c ∈ channel_indices_to_keep s)); [by left|right].
    split; [lia|done].
  - rewrite elem_of_intersection, !elem_of_list_to_set, Hel, elem_of_empty. tauto.
Qed.

(** C10.  The integer a successful call returns is the length of the
    channel list of the one job it submits, and is [nb_of_clusters], the
    first component the keep/prune split helper returns for the kernel's
    channel count. *)
Theorem returned_count (self : KMeansFilterPruning F) (l : layer)
    (w w2 : world F G) (r : Z) :
  run_pruning_for_conv2d_layer E self l w = (Ok r, w2) →
  ∃ n channels,
    kernel_of w l n ∧
    jobs w2 = jobs w ++ [delete_channels l channels] ∧
    r = Z.of_nat (length channels) ∧
    r = (_calculate_number_of_channels_to_keep E (_clustering_factor self) n).1.
Proof.
  intros Hrun.
  destruct (select_channels E self l w) as [[s|e] w1] eqn:Hs.
  2:{ by rewrite (run_select_Raise _ _ _ _ _ Hs) in Hrun. }
  rewrite (run_select_Ok _ _ _ _ _ Hs) in Hrun.
  destruct (select_channels_kernel _ _ _ _ _ Hs) as [Hker Hk].
  destruct (select_channels_world _ _ _ _ _ Hs) as (_ & _ & Hjobs).
  destruct (reconcile E _ _ _ w1) as [[channels|e] w'] eqn:Hrec; [|done].
  apply reconcile_world in Hrec as (_ & Hrec & _).
  destruct (decide (Z.of_nat (length channels) = nb_of_clusters s)) as [Heq|Hne].
  - rewrite submit_equal in Hrun by done. injection Hrun as <- <-.
    exists (nb_channels s), channels. simpl.
    split_and!; [done| |done|done]. by rewrite Hrec, Hjobs.
  - by rewrite submit_differ in Hrun.
Qed.

End Facts.

(** * The small instance meets the contracts, and the claims on it *)

Lemma toy_externals_ok : externals_ok toy.
Proof.
  split; simpl.
  - intros l. apply NoDup_remove_dups.
  - intros l x. apply elem_of_remove_dups.
  - intros s t Hs. by apply NoDup_list_difference.
  - intros s t x. apply list_elem_of_difference.
  - intros l g. apply reverse_Permutation.
  - by intros x g x' g' [= <- _].
Qed.

Lemma toy_kmeans_ok : kmeans_ok toy.
Proof.
  intros k x g c g'. simpl.
  destruct (k <? 1) eqn:H1; [done|].
  destruct (Z.of_nat (length x) <? k) eqn:H2; [done|].
  intros _. apply Z.ltb_ge in H1, H2. lia.
Qed.

Lemma kernel_of_conv4 : kernel_of world0 conv4 4.
Proof. by exists kernel4, [], 1%nat, 1%nat, 1%nat. Qed.

(** Four filters, three clusters: one channel in the initial prune list,
    two more taken from the shuffled keep list. *)
Lemma submitted_channels_exact_witness :
  ∃ channels w2,
    run_pruning_for_conv2d_layer toy (pruner 3) conv4 world0 = (Ok 3, w2) ∧
    jobs w2 = jobs world0 ++ [delete_channels conv4 channels] ∧
    Z.of_nat (length channels) = 3 ∧
    NoDup channels ∧
    (∀ c, c ∈ channels → (c < 4)%nat).
Proof.
  apply (submitted_channels_exact toy (pruner 3) conv4 world0
           {| layer_weights := weights0; rng := 2%nat; stdout := []; jobs := [] |}
           {| nb_of_clusters := 3; nb_channels := 4;
              channel_indices_to_prune := [3%nat];
              channel_indices_to_keep := [0; 1; 2]%nat |}
           4 toy_externals_ok kernel_of_conv4).
  - simpl. lia.
  - reflexivity.
Defined.

Lemma zero_clusters_rejected_witness :
  ∃ e w',
    run_pruning_for_conv2d_layer toy (pruner 0) conv4 world0 = (Raise e, w') ∧
    raised_before_clusters e = true ∧
    stdout w' = stdout world0 ∧ jobs w' = jobs world0.
Proof.
  apply (zero_clusters_rejected toy (pruner 0) conv4 world0 4 toy_kmeans_ok
           kernel_of_conv4).
  reflexivity.
Defined.

(** C3, as stated, fails: with a cluster count of 0 the call on the four
    filters does not return an empty list, it ends in the error of the fit
    and submits nothing. *)
Lemma zero_clusters_raise :
  (_calculate_number_of_channels_to_keep toy (_clustering_factor (pruner 0)) 4).1 = 0 ∧
  run_pruning_for_conv2d_layer toy (pruner 0) conv4 world0 =
    (Raise Raised_by_fit,
     {| layer_weights := weights0; rng := 1%nat; stdout := []; jobs := [] |}).
Proof. split; reflexivity. Qed.

Lemma count_guard_unreachable_witness :
  is_count_mismatch (run_pruning_for_conv2d_layer toy (pruner 3) conv4 world0).1 = false.
Proof.
  apply (count_guard_unreachable toy (pruner 3) conv4 world0 4 kernel_of_conv4).
  simpl. lia.
Defined.

(** Four filters, one cluster: three channels in the initial prune list,
    the first one submitted. *)
Lemma surplus_truncated_witness :
  run_pruning_for_conv2d_layer toy (pruner 1) conv4 world0 =
    (Ok 1,
     {| layer_weights := weights0;
        rng := 2%nat;
        stdout := [msg_greater; msg_discarding];
        jobs := [delete_channels conv4 [1%nat]] |}) ∧
  length (take 1 [1; 2; 3]%nat) = 1%nat ∧
  (∀ c, c ∈ drop 1 [1; 2; 3]%nat → c ∉ take 1 [1; 2; 3]%nat).
Proof.
  apply (surplus_truncated toy (pruner 1) conv4 world0
           {| layer_weights := weights0; rng := 2%nat; stdout := []; jobs := [] |}
           {| nb_of_clusters := 1; nb_channels := 4;
              channel_indices_to_prune := [1; 2; 3]%nat;
              channel_indices_to_keep := [0%nat] |}
           toy_externals_ok toy_kmeans_ok).
  - reflexivity.
  - simpl. lia.
Defined.

Lemma shortfall_filled_witness :
  run_pruning_for_conv2d_layer toy (pruner 3) conv4 world0 =
    (Ok 3,
     {| layer_weights := weights0;
        rng := 3%nat;
        stdout := [msg_less; msg_adding 2];
        jobs := [delete_channels conv4 ([3] ++ [2; 1])%nat] |}) ∧
  Z.of_nat (length ([3] ++ [2; 1])%nat) = 3 ∧
  Z.of_nat (length [2; 1]%nat) = 2 ∧
  NoDup [2; 1]%nat ∧
  (∀ c, c ∈ [2; 1]%nat → c ∈ [0; 1; 2]%nat) ∧
  (∀ c, c ∈ [2; 1]%nat → c ∉ [3%nat]).
Proof.
  apply (shortfall_filled toy (pruner 3) conv4 world0
           {| layer_weights := weights0; rng := 2%nat; stdout := []; jobs := [] |}
           {| nb_of_clusters := 3; nb_channels := 4;
              channel_indices_to_prune := [3%nat];
              channel_indices_to_keep := [0; 1; 2]%nat |}
           toy_externals_ok toy_kmeans_ok).
  - reflexivity.
  - simpl. lia.
Defined.

(** Two worlds with the same weights and the same random source, and
    different histories. *)
Lemma same_seed_same_channels_witness :
  (run_pruning_for_conv2d_layer toy (pruner 3) conv4 world0).1 =
    (run_pruning_for_conv2d_layer toy (pruner 3) conv4 world1).1 ∧
  rng (run_pruning_for_conv2d_layer toy (pruner 3) conv4 world0).2 =
    rng (run_pruning_for_conv2d_layer toy (pruner 3) conv4 world1).2 ∧
  ∃ out submitted,
    (stdout (run_pruning_for_conv2d_layer toy (pruner 3) conv4 world0).2
       = stdout world0 ++ out ∧
     stdout (run_pruning_for_conv2d_layer toy (pruner 3) conv4 world1).2
       = stdout world1 ++ out) ∧
    (jobs (run_pruning_for_conv2d_layer toy (pruner 3) conv4 world0).2
       = jobs world0 ++ submitted ∧
     jobs (run_pruning_for_conv2d_layer toy (pruner 3) conv4 world1).2
       = jobs world1 ++ submitted).
Proof.
  apply (same_seed_same_channels toy (pruner 3) conv4 world0 world1).
  - reflexivity.
  - reflexivity.
Defined.

Lemma keep_prune_partition_witness :
  list_to_set [0; 1; 2]%nat ∪ list_to_set [3%nat] = (set_seq 0 4 : gset nat) ∧
  list_to_set [0; 1; 2]%nat ∩ list_to_set [3%nat] = (∅ : gset nat).
Proof.
  apply (keep_prune_partition toy (pruner 3) conv4 world0
           {| layer_weights := weights0; rng := 2%nat; stdout := []; jobs := [] |}
           {| nb_of_clusters := 3; nb_channels := 4;
              channel_indices_to_prune := [3%nat];
              channel_indices_to_keep := [0; 1; 2]%nat |}
           4 toy_externals_ok kernel_of_conv4).
  reflexivity.
Defined.

Lemma returned_count_witness :
  ∃ n channels,
    kernel_of world0 conv4 n ∧
    jobs {| layer_weights := weights0; rng := 2%nat; stdout := [];
            jobs := [delete_channels conv4 [2; 3]%nat] |}
      = jobs world0 ++ [delete_channels conv4 channels] ∧
    2 = Z.of_nat (length channels) ∧
    2 = (_calculate_number_of_channels_to_keep toy (_clustering_factor (pruner 2)) n).1.
Proof.
  apply (returned_count toy (pruner 2) conv4 world0).
  reflexivity.
Defined.

(** * Further properties of the method *)

Section Beyond.

Context {F G : Type} (E : externals F G).

(** ** The reconciliation outside the range [0 <= k <= n] *)

Lemma slice_to_negative_length (k : Z) (l : list nat) :
  k < 0 → length (slice_to k l) = (length l - Z.to_nat (- k))%nat.
Proof.
  intros Hk. unfold slice_to. rewrite (proj2 (Z.ltb_lt _ _) Hk), length_take. lia.
Qed.

Lemma reconcile_above (n : nat) (k : Z) (prune keep : list nat) (w : world F G) :
  externals_ok E →
  split_ok n prune keep →
  Z.of_nat n < k →
  (reconcile E k prune keep w).1 = Raise IndexError_keep.
Proof.
  intros HE Hsplit Hk.
  pose proof (split_length _ _ _ Hsplit) as Hlen.
  pose proof (Permutation_length (shuffle_perm E HE keep (rng w))) as Hlen'.
  rewrite reconcile_less by lia. simpl. unfold range. rewrite append_kept_seq.
  destruct (decide (0 + Z.to_nat (k - Z.of_nat (length prune))
                    ≤ length (shuffle E keep (rng w)).1)%nat); [lia|].
  destruct (decide (Z.to_nat (k - Z.of_nat (length prune)) = 0%nat)); [lia|done].
Qed.

Lemma run_select_negative (self : KMeansFilterPruning F) (l : layer)
    (w w1 : world F G) (s : selection) :
  select_channels E self l w = (Ok s, w1) →
  nb_of_clusters s < 0 →
  is_count_mismatch (run_pruning_for_conv2d_layer E self l w).1 = true.
Proof.
  intros Hs Hk.
  rewrite (run_select_Ok E _ _ _ _ _ Hs), reconcile_greater by lia.
  rewrite submit_differ; [done|].
  rewrite slice_to_negative_length by done. lia.
Qed.

Lemma run_select_nonnegative (self : KMeansFilterPruning F) (l : layer)
    (w w1 : world F G) (s : selection) :
  select_channels E self l w = (Ok s, w1) →
  0 ≤ nb_of_clusters s →
  is_count_mismatch (run_pruning_for_conv2d_layer E self l w).1 = false.
Proof.
  intros Hs Hk.
  rewrite (run_select_Ok E _ _ _ _ _ Hs).
  destruct (reconcile E _ _ _ w1) as [[channels|e] w2] eqn:Hrec.
  - apply reconcile_Ok_length in Hrec; [|done]. by rewrite submit_equal.
  - by apply reconcile_Raise in Hrec as ->.
Qed.

Lemma run_select_above (self : KMeansFilterPruning F) (l : layer)
    (w w1 : world F G) (s : selection) :
  externals_ok E →
  select_channels E self l w = (Ok s, w1) →
  Z.of_nat (nb_channels s) < nb_of_clusters s →
  (run_pruning_for_conv2d_layer E self l w).1 = Raise IndexError_keep.
Proof.
  intros HE Hs Hk.
  pose proof (select_channels_split E _ _ _ _ _ HE Hs) as Hsplit.
  pose proof (reconcile_above _ _ _ _ w1 HE Hsplit Hk) as Hrec.
  rewrite (run_select_Ok E _ _ _ _ _ Hs).
  destruct (reconcile E _ _ _ w1) as [[channels|e] w2]; simpl in Hrec; [done|].
  by injection Hrec as ->.
Qed.

Lemma run_select_within (self : KMeansFilterPruning F) (l : layer)
    (w w1 : world F G) (s : selection) :
  externals_ok E →
  select_channels E self l w = (Ok s, w1) →
  0 ≤ nb_of_clusters s ≤ Z.of_nat (nb_channels s) →
  ∃ channels w2,
    reconcile E (nb_of_clusters s) (channel_indices_to_prune s)
      (channel_indices_to_keep s) w1 = (Ok channels, w2) ∧
    run_pruning_for_conv2d_layer E self l w =
      (Ok (nb_of_clusters s),
       {| layer_weights := layer_weights w2; rng := rng w2; stdout := stdout w2;
          jobs := jobs w ++ [delete_channels l channels] |}) ∧
    Z.of_nat (length channels) = nb_of_clusters s ∧
    NoDup channels ∧
    (∀ c, c ∈ channels → (c < nb_channels s)%nat).
Proof.
  intros HE Hs Hk.
  pose proof (select_channels_split E _ _ _ _ _ HE Hs) as Hsplit.
  destruct (select_channels_world E _ _ _ _ _ Hs) as (_ & _ & Hjobs).
  destruct (reconcile_spec E _ _ _ _ w1 HE Hsplit Hk)
    as (channels & w2 & Hrec & Hjobs2 & Hlen & Hnd & Hlt).
  exists channels, w2.
  rewrite (run_select_Ok E _ _ _ _ _ Hs), Hrec, submit_equal by done.
  by rewrite Hjobs2, Hjobs.
Qed.

(** X1.  A layer that holds no weights makes the call raise the
    [IndexError] of [get_weights()[0]] on line 29, with the world as it
    was: nothing drawn, printed or queued. *)
Theorem no_weights_raises (self : KMeansFilterPruning F) (l : layer) (w : world F G) :
  layer_weights w l = [] →
  run_pruning_for_conv2d_layer E self l w = (Raise IndexError_get_weights, w).
Proof.
  intros Hw. apply run_select_Raise.
  unfold select_channels, mbind, M_bind, bind, get_weights, lift. by rewrite Hw.
Qed.

(** X2.  Once lines 29-51 went through, the count guard of lines 66-69
    fires exactly when the cluster count is negative: then [l[:k]] drops
    entries from the end instead of keeping [k], and the length can not
    match. *)
Theorem count_guard_iff_negative (self : KMeansFilterPruning F) (l : layer)
    (w w1 : world F G) (s : selection) :
  select_channels E self l w = (Ok s, w1) →
  is_count_mismatch (run_pruning_for_conv2d_layer E self l w).1 = true ↔
  nb_of_clusters s < 0.
Proof.
  intros Hs. split.
  - intros Hfire. destruct (Z.lt_ge_cases (nb_of_clusters s) 0) as [|Hk]; [done|].
    by rewrite (run_select_nonnegative _ _ _ _ _ Hs Hk) in Hfire.
  - apply (run_select_negative _ _ _ _ _ Hs).
Qed.

(** X3.  Once lines 29-51 went through, the call ends in the [IndexError]
    of line 64 exactly when the cluster count exceeds the number of output
    channels: the fill loop then asks the keep list for more channels than
    it holds. *)
Theorem index_error_iff_above (self : KMeansFilterPruning F) (l : layer)
    (w w1 : world F G) (s : selection) :
  externals_ok E →
  select_channels E self l w = (Ok s, w1) →
  (run_pruning_for_conv2d_layer E self l w).1 = Raise IndexError_keep ↔
  Z.of_nat (nb_channels s) < nb_of_clusters s.
Proof.
  intros HE Hs. split.
  - intros Hraise.
    destruct (Z.lt_ge_cases (Z.of_nat (nb_channels s)) (nb_of_clusters s))
      as [|Hle]; [done|].
    destruct (Z.lt_ge_cases (nb_of_clusters s) 0) as [Hneg|Hpos].
    + pose proof (run_select_negative _ _ _ _ _ Hs Hneg) as Hfire.
      by rewrite Hraise in Hfire.
    + destruct (run_select_within _ _ _ _ _ HE Hs (conj Hpos Hle))
        as (channels & w2 & _ & Hrun & _).
      by rewrite Hrun in Hraise.
  - apply (run_select_above _ _ _ _ _ HE Hs).
Qed.

(** X4.  Once lines 29-51 went through, the call returns exactly when
    [0 <= k <= n], for [k] the cluster count and [n] the number of output
    channels. *)
Theorem returns_iff_in_range (self : KMeansFilterPruning F) (l : layer)
    (w w1 : world F G) (s : selection) :
  externals_ok E →
  select_channels E self l w = (Ok s, w1) →
  (run_pruning_for_conv2d_layer E self l w).1 = Ok (nb_of_clusters s) ↔
  0 ≤ nb_of_clusters s ≤ Z.of_nat (nb_channels s).
Proof.
  intros HE Hs. split.
  - intros Hok.
    destruct (Z.lt_ge_cases (nb_of_clusters s) 0) as [Hneg|Hpos].
    { pose proof (run_select_negative _ _ _ _ _ Hs Hneg) as Hfire.
      by rewrite Hok in Hfire. }
    destruct (Z.lt_ge_cases (Z.of_nat (nb_channels s)) (nb_of_clusters s))
      as [Habove|Hle]; [|done].
    by rewrite (run_select_above _ _ _ _ _ HE Hs Habove) in Hok.
  - intros Hk.
    destruct (run_select_within _ _ _ _ _ HE Hs Hk) as (channels & w2 & _ & Hrun & _).
    by rewrite Hrun.
Qed.

(** ** Which channels are submitted *)

Lemma filter_all (P : nat → Prop) `{∀ x, Decision (P x)} (l : list nat) :
  (∀ x, x ∈ l → P x) → filter P l = l.
Proof.
  induction l as [|x l IH]; intros Hall; [done|].
  rewrite filter_cons_True by (apply Hall; left).
  f_equal. apply IH. intros y Hy. apply Hall. by right.
Qed.

Lemma filter_none (P : nat → Prop) `{∀ x, Decision (P x)} (l : list nat) :
  (∀ x, x ∈ l → ¬ P x) → filter P l = [].
Proof.
  induction l as [|x l IH]; intros Hall; [done|].
  rewrite filter_cons_False by (apply Hall; left).
  apply IH. intros y Hy. apply Hall. by right.
Qed.

Lemma length_filter_not_elem (n : nat) (l : list nat) :
  NoDup l → (∀ c, c ∈ l → (c < n)%nat) →
  length (filter (λ c, c ∉ l) (seq 0 n)) = (n - length l)%nat.
Proof.
  intros Hnd Hlt.
  pose proof (Permutation_length (filter_app_complement (λ c, c ∈ l) (seq 0 n))) as Hlen.
  rewrite length_app, length_seq in Hlen.
  assert (filter (λ c, c ∈ l) (seq 0 n) ≡ₚ l) as Hperm.
  { apply NoDup_Permutation; [apply NoDup_filter, NoDup_seq|done|].
    intros c. rewrite list_elem_of_filter, elem_of_seq.
    split; [tauto|]. intros Hc. split; [done|]. apply Hlt in Hc. lia. }
  rewrite (Permutation_length Hperm) in Hlen. lia.
Qed.

(** X5.  When the initial prune list holds at least [k >= 0] entries, so
    that nothing has to be filled in, no representative (no channel nearest
    to a cluster centre, line 45) is submitted, and the random source is
    left as the fit left it. *)
Theorem representatives_protected (self : KMeansFilterPruning F) (l : layer)
    (w w1 : world F G) (s : selection) :
  externals_ok E →
  select_channels E self l w = (Ok s, w1) →
  0 ≤ nb_of_clusters s ≤ Z.of_nat (length (channel_indices_to_prune s)) →
  ∃ channels w2,
    run_pruning_for_conv2d_layer E self l w = (Ok (nb_of_clusters s), w2) ∧
    jobs w2 = jobs w ++ [delete_channels l channels] ∧
    rng w2 = rng w1 ∧
    (∀ c, c ∈ channels → c ∉ channel_indices_to_keep s).
Proof.
  intros HE Hs [Hpos Hle].
  pose proof (select_channels_split E _ _ _ _ _ HE Hs) as Hsplit.
  destruct (select_channels_world E _ _ _ _ _ Hs) as (_ & _ & Hjobs).
  rewrite (run_select_Ok E _ _ _ _ _ Hs).
  apply Z.le_lteq in Hle as [Hlt|Heq].
  - rewrite reconcile_greater, slice_to_nonneg by done.
    rewrite submit_equal by (rewrite length_take; lia).
    eexists _, _. split_and!; [done|by simpl; rewrite Hjobs|done|].
    intros c Hc%subseteq_take.
    by apply (split_prune_elem _ _ _ Hsplit) in Hc as [_ ?].
  - rewrite reconcile_equal, submit_equal by done.
    eexists _, _. split_and!; [done|by simpl; rewrite Hjobs|done|].
    intros c Hc. by apply (split_prune_elem _ _ _ Hsplit) in Hc as [_ ?].
Qed.

(** X6.  When the initial prune list holds exactly [k] entries it is
    submitted as it is: the submitted channels are all the channels that
    are not representatives, nothing is printed and nothing is drawn after
    the fit. *)
Theorem exact_match_submits_complement (self : KMeansFilterPruning F) (l : layer)
    (w w1 : world F G) (s : selection) :
  externals_ok E →
  select_channels E self l w = (Ok s, w1) →
  Z.of_nat (length (channel_indices_to_prune s)) = nb_of_clusters s →
  run_pruning_for_conv2d_layer E self l w =
    (Ok (nb_of_clusters s),
     {| layer_weights := layer_weights w;
        rng := rng w1;
        stdout := stdout w;
        jobs := jobs w ++ [delete_channels l (channel_indices_to_prune s)] |}) ∧
  (list_to_set (channel_indices_to_prune s) : gset nat) =
    set_seq 0 (nb_channels s) ∖ list_to_set (channel_indices_to_keep s).
Proof.
  intros HE Hs Heq.
  pose proof (select_channels_split E _ _ _ _ _ HE Hs) as Hsplit.
  destruct (select_channels_world E _ _ _ _ _ Hs) as (Hl & Hout & Hjobs).
  split.
  - rewrite (run_select_Ok E _ _ _ _ _ Hs), reconcile_equal, submit_equal by done.
    by rewrite Hl, Hout, Hjobs.
  - apply set_eq. intros c.
    rewrite elem_of_difference, !elem_of_list_to_set, elem_of_set_seq,
      (split_prune_elem _ _ _ Hsplit).
    split; intros [? ?]; (split; [lia|done]).
Qed.

(** X7.  When the initial prune list holds fewer than [k <= n] entries,
    every channel that is not a representative is submitted, together with
    exactly [k - len] representatives: that many channels nearest to a
    cluster centre lose the protection of line 43. *)
Theorem shortfall_sacrifices (self : KMeansFilterPruning F) (l : layer)
    (w w1 : world F G) (s : selection) :
  externals_ok E →
  select_channels E self l w = (Ok s, w1) →
  Z.of_nat (length (channel_indices_to_prune s)) < nb_of_clusters s
    ≤ Z.of_nat (nb_channels s) →
  ∃ channels w2,
    run_pruning_for_conv2d_layer E self l w = (Ok (nb_of_clusters s), w2) ∧
    jobs w2 = jobs w ++ [delete_channels l channels] ∧
    (∀ c, c ∈ channel_indices_to_prune s → c ∈ channels) ∧
    Z.of_nat (length (filter (λ c, c ∈ channel_indices_to_keep s) channels)) =
      nb_of_clusters s - Z.of_nat (length (channel_indices_to_prune s)).
Proof.
  intros HE Hs Hk.
  pose proof (select_channels_split E _ _ _ _ _ HE Hs) as Hsplit.
  destruct (select_channels_world E _ _ _ _ _ Hs) as (_ & _ & Hjobs).
  destruct (reconcile_less_spec E _ _ _ _ w1 HE Hsplit Hk) as (Hrec & Hlen & Hnd & Hin).
  rewrite (run_select_Ok E _ _ _ _ _ Hs), Hrec, submit_equal by done.
  eexists _, _. split_and!; [done|by simpl; rewrite Hjobs| |].
  - intros c Hc. apply elem_of_app. by left.
  - rewrite filter_app, filter_none, (filter_all _ _ Hin), app_nil_l.
    + rewrite length_app in Hlen. lia.
    + intros c Hc. by apply (split_prune_elem _ _ _ Hsplit) in Hc as [_ ?].
Qed.

(** X8.  With a cluster count equal to the number of output channels the
    call submits every channel of the layer, each once. *)
Theorem all_channels_when_count_is_n (self : KMeansFilterPruning F) (l : layer)
    (w w1 : world F G) (s : selection) :
  externals_ok E →
  select_channels E self l w = (Ok s, w1) →
  nb_of_clusters s = Z.of_nat (nb_channels s) →
  ∃ channels w2,
    run_pruning_for_conv2d_layer E self l w = (Ok (nb_of_clusters s), w2) ∧
    jobs w2 = jobs w ++ [delete_channels l channels] ∧
    channels ≡ₚ seq 0 (nb_channels s).
Proof.
  intros HE Hs Hk.
  destruct (run_select_within _ _ _ _ _ HE Hs) as (channels & w2 & _ & Hrun & Hlen & Hnd & Hlt);
    [lia|].
  eexists channels, _. split_and!; [exact Hrun|done|].
  apply submseteq_length_Permutation.
  - apply NoDup_submseteq; [done|]. intros c Hc%Hlt. apply elem_of_seq. lia.
  - rewrite length_seq. lia.
Qed.

(** X9.  After a call that returns on a kernel with [n] output channels and
    cluster count [k], exactly [n - k] of the channels [0 .. n-1] are not in
    the submitted list: the cluster count is the number of channels the job
    deletes, not the number it leaves. *)
Theorem survivors_count (self : KMeansFilterPruning F) (l : layer)
    (w w1 : world F G) (s : selection) :
  externals_ok E →
  select_channels E self l w = (Ok s, w1) →
  0 ≤ nb_of_clusters s ≤ Z.of_nat (nb_channels s) →
  ∃ channels w2,
    run_pruning_for_conv2d_layer E self l w = (Ok (nb_of_clusters s), w2) ∧
    jobs w2 = jobs w ++ [delete_channels l channels] ∧
    length (filter (λ c, c ∉ channels) (seq 0 (nb_channels s))) =
      (nb_channels s - Z.to_nat (nb_of_clusters s))%nat.
Proof.
  intros HE Hs Hk.
  destruct (run_select_within _ _ _ _ _ HE Hs Hk)
    as (channels & w2 & _ & Hrun & Hlen & Hnd & Hlt).
  eexists channels, _. split_and!; [exact Hrun|done|].
  rewrite length_filter_not_elem by done. lia.
Qed.

(** X10.  After line 51 there is at least one representative and at most
    one per cluster centre, so the initial prune list never holds all the
    channels of the layer. *)
Theorem representatives_bounded (self : KMeansFilterPruning F) (l : layer)
    (w w1 : world F G) (s : selection) :
  externals_ok E →
  select_channels E self l w = (Ok s, w1) →
  ∃ x g centers g',
    kmeans_fit E (nb_of_clusters s) x g = (Some centers, g') ∧
    (1 ≤ length (channel_indices_to_keep s) ≤ length centers)%nat ∧
    (length (channel_indices_to_prune s) < nb_channels s)%nat.
Proof.
  intros HE Hs.
  pose proof (select_channels_split E _ _ _ _ _ HE Hs) as Hsplit.
  pose proof (split_length _ _ _ Hsplit) as Hlen.
  apply select_channels_Ok in Hs
    as (a & rest & h & wd & ic & x & x' & g1 & centers & g2 & closest &
        _ & _ & _ & _ & _ & Hfit & Hmin & Hkeep & _ & _).
  exists x', g1, centers, g2. split; [done|].
  assert (length closest = length centers ∧ closest ≠ []) as [Hcl Hne].
  { unfold pairwise_distances_argmin in Hmin.
    destruct centers as [|c0 centers]; [done|]. destruct x' as [|r0 y]; [done|].
    injection Hmin as <-. split; [simpl; by rewrite length_map|done]. }
  assert (1 ≤ length (channel_indices_to_keep s))%nat as H1.
  { destruct closest as [|i closest]; [done|].
    assert (i ∈ channel_indices_to_keep s) as Hi
      by (rewrite Hkeep; apply (set_of_elem E HE); left).
    destruct (channel_indices_to_keep s); [by apply elem_of_nil in Hi|simpl; lia]. }
  split; [split; [done|]|lia].
  rewrite <- Hcl, Hkeep. apply submseteq_length, NoDup_submseteq.
  - apply (set_of_NoDup E HE).
  - intros c. apply (set_of_elem E HE).
Qed.

(** ** The flattened filter matrix of line 38 *)

Lemma omap_ext_seq {A} (f g : nat → option A) (l : list nat) :
  (∀ p, f p = g p) → omap f l = omap g l.
Proof.
  intros Hfg. induction l as [|p l IH]; [done|].
  csimpl. rewrite Hfg. destruct (g p); [|done]. by f_equal.
Qed.

Lemma omap_seq_S {A} (f : nat → option A) (m : nat) :
  ∀ j, omap f (seq (S j) m) = omap (λ p, f (S p)) (seq j m).
Proof. induction m as [|m IH]; intros j; [done|]. csimpl. by rewrite IH. Qed.

Lemma omap_seq_total {A} (f : nat → option A) (m : nat) :
  (∀ p, (p < m)%nat → is_Some (f p)) →
  length (omap f (seq 0 m)) = m ∧
  (∀ p, (p < m)%nat → omap f (seq 0 m) !! p = f p).
Proof.
  induction m as [|m IH]; intros Hf; [split; [done|lia]|].
  destruct IH as [Hlen Hlook]; [intros p Hp; apply Hf; lia|].
  destruct (Hf m) as [v Hv]; [lia|].
  rewrite seq_S, omap_app. csimpl. rewrite Hv. split.
  - rewrite length_app, Hlen. simpl. lia.
  - intros p Hp. destruct (decide (p = m)) as [->|Hne].
    + rewrite lookup_app_r by lia. rewrite Hlen, Nat.sub_diag. by rewrite Hv.
    + rewrite lookup_app_l by lia. apply Hlook. lia.
Qed.

Lemma concat_option_list_lookup {A} (l : list A) (n : nat) :
  ∀ j, concat (map (λ c, option_list (l !! c)) (seq j n)) = take n (drop j l).
Proof.
  induction n as [|n IH]; intros j; simpl; [done|].
  rewrite IH. destruct (l !! j) as [v|] eqn:Hj.
  - by rewrite (drop_S _ _ _ Hj).
  - apply lookup_ge_None in Hj. rewrite !drop_ge by lia. simpl. by rewrite take_nil.
Qed.

Lemma concat_map_app_Permutation {A} (g r : nat → list A) (l : list nat) :
  concat (map (λ c, g c ++ r c) l) ≡ₚ concat (map g l) ++ concat (map r l).
Proof.
  induction l as [|c l IH]; simpl; [done|].
  rewrite IH, <- !app_assoc. f_equiv.
  rewrite !app_assoc. f_equiv. apply Permutation_app_comm.
Qed.

Lemma concat_map_nil {A} (l : list nat) :
  concat (map (λ _, @nil A) l) = [].
Proof. induction l; simpl; [done|]. done. Qed.

Lemma lookup_map {A B} (f : A → B) (l : list A) (i : nat) :
  map f l !! i = f <$> l !! i.
Proof. exact (list_lookup_fmap f l i). Qed.

(** The rows of the flattened matrix, read off data of any length. *)
Lemma flattened_rows_Permutation {A} (n m : nat) :
  ∀ d : list A,
    concat (map (λ c, omap (λ p, d !! (p * n + c)%nat) (seq 0 m)) (seq 0 n))
    ≡ₚ take (m * n) d.
Proof.
  induction m as [|m IH]; intros d.
  - simpl. by rewrite concat_map_nil.
  - rewrite (map_ext _ (λ c, option_list (d !! c) ++
                               omap (λ p, drop n d !! (p * n + c)%nat) (seq 0 m))).
    + rewrite concat_map_app_Permutation, concat_option_list_lookup, IH.
      simpl. by rewrite take_take_drop.
    + intros c. csimpl. rewrite omap_seq_S.
      rewrite (omap_ext_seq _ (λ p, drop n d !! (p * n + c)%nat)).
      * by destruct (d !! c).
      * intros p. rewrite lookup_drop. f_equal. lia.
Qed.

(** X11.  Line 38 on a well-formed 4-D kernel with [n > 0] output channels
    yields one row per output channel, each with
    [height * width * input_channels] features; column [p] of row [c] is
    the entry at position [p * n + c] of the C-ordered data, that is, the
    weight of channel [c] at position [p] of the other three axes; and the
    rows hold the weights of the kernel, each once. *)
Theorem flatten_filters_rearranges (a : ndarray F) (height width input_channels n : nat) :
  shape a = [height; width; input_channels; n] →
  (0 < n)%nat →
  length (data a) = (height * width * input_channels * n)%nat →
  ∃ x,
    flatten_filters a n = Ok x ∧
    length x = n ∧
    Forall (λ row, length row = (height * width * input_channels)%nat) x ∧
    (∀ c p, (c < n)%nat → (p < height * width * input_channels)%nat →
            x !! c ≫= (λ row, row !! p) = data a !! (p * n + c)%nat) ∧
    concat x ≡ₚ data a.
Proof.
  intros Hshape Hn Hdata.
  set (m := (height * width * input_channels)%nat) in *.
  assert (size a / n = m)%nat as Hm.
  { unfold size. rewrite Hshape. simpl.
    replace (height * (width * (input_channels * (n * 1))))%nat with (m * n)%nat
      by (unfold m; lia).
    apply Nat.div_mul. lia. }
  assert (∀ c, (c < n)%nat →
            length (omap (λ p, data a !! (p * n + c)%nat) (seq 0 m)) = m ∧
            (∀ p, (p < m)%nat →
               omap (λ p, data a !! (p * n + c)%nat) (seq 0 m) !! p
               = data a !! (p * n + c)%nat)) as Hrow.
  { intros c Hc. apply omap_seq_total. intros p Hp.
    apply lookup_lt_is_Some. rewrite Hdata. fold m. nia. }
  unfold flatten_filters. rewrite decide_False by lia. rewrite Hm.
  eexists. split_and!; [done| | | |].
  - by rewrite length_map, length_seq.
  - apply Forall_forall. intros row Hrow'.
    apply list_elem_of_In, in_map_iff in Hrow' as (c & <- & Hc).
    apply in_seq in Hc. apply Hrow. lia.
  - intros c p Hc Hp.
    unfold matrix. rewrite lookup_map, lookup_seq_lt by done. simpl.
    by apply Hrow.
  - rewrite flattened_rows_Permutation, take_ge by (rewrite Hdata; fold m; lia). done.
Qed.

End Beyond.

(** * The further properties on the small instances *)

Lemma lax_externals_ok : externals_ok lax.
Proof.
  split; simpl.
  - intros l. apply NoDup_remove_dups.
  - intros l x. apply elem_of_remove_dups.
  - intros s t Hs. by apply NoDup_list_difference.
  - intros s t x. apply list_elem_of_difference.
  - intros l g. apply reverse_Permutation.
  - by intros x g x' g' [= <- _].
Qed.

(** An activation layer, which holds no weights. *)
Lemma no_weights_raises_witness :
  run_pruning_for_conv2d_layer toy (pruner 2) activation world2
    = (Raise IndexError_get_weights, world2).
Proof. apply (no_weights_raises toy (pruner 2) activation world2). reflexivity. Defined.

(** A cluster count of -1 that the fit lets through: [l[:-1]] leaves two of
    the three prunable channels, and the guard fires. *)
Lemma count_guard_iff_negative_witness :
  is_count_mismatch (run_pruning_for_conv2d_layer lax (pruner (-1)) conv4 world0).1 = true ↔
  -1 < 0.
Proof.
  apply (count_guard_iff_negative lax (pruner (-1)) conv4 world0
           {| layer_weights := weights0; rng := 2%nat; stdout := []; jobs := [] |}
           {| nb_of_clusters := -1; nb_channels := 4;
              channel_indices_to_prune := [1; 2; 3]%nat;
              channel_indices_to_keep := [0%nat] |}).
  reflexivity.
Defined.

(** Five clusters asked of four channels, let through by the fit: the fill
    loop runs out of kept channels. *)
Lemma index_error_iff_above_witness :
  (run_pruning_for_conv2d_layer lax (pruner 5) conv4 world0).1 = Raise IndexError_keep ↔
  Z.of_nat 4 < 5.
Proof.
  apply (index_error_iff_above lax (pruner 5) conv4 world0
           {| layer_weights := weights0; rng := 2%nat; stdout := []; jobs := [] |}
           {| nb_of_clusters := 5; nb_channels := 4;
              channel_indices_to_prune := [1; 2; 3]%nat;
              channel_indices_to_keep := [0%nat] |}
           lax_externals_ok).
  reflexivity.
Defined.

Lemma returns_iff_in_range_witness :
  (run_pruning_for_conv2d_layer toy (pruner 3) conv4 world0).1 = Ok 3 ↔
  0 ≤ 3 ≤ Z.of_nat 4.
Proof.
  apply (returns_iff_in_range toy (pruner 3) conv4 world0
           {| layer_weights := weights0; rng := 2%nat; stdout := []; jobs := [] |}
           {| nb_of_clusters := 3; nb_channels := 4;
              channel_indices_to_prune := [3%nat];
              channel_indices_to_keep := [0; 1; 2]%nat |}
           toy_externals_ok).
  reflexivity.
Defined.

(** One cluster: channel 0 is its representative, and channel 1 is what is
    submitted. *)
Lemma representatives_protected_witness :
  ∃ channels w2,
    run_pruning_for_conv2d_layer toy (pruner 1) conv4 world0 = (Ok 1, w2) ∧
    jobs w2 = jobs world0 ++ [delete_channels conv4 channels] ∧
    rng w2 = 2%nat ∧
    (∀ c, c ∈ channels → c ∉ [0%nat]).
Proof.
  apply (representatives_protected toy (pruner 1) conv4 world0
           {| layer_weights := weights0; rng := 2%nat; stdout := []; jobs := [] |}
           {| nb_of_clusters := 1; nb_channels := 4;
              channel_indices_to_prune := [1; 2; 3]%nat;
              channel_indices_to_keep := [0%nat] |}
           toy_externals_ok).
  - reflexivity.
  - simpl. lia.
Defined.

(** Two clusters out of four channels: the two channels that are not
    representatives are submitted, silently. *)
Lemma exact_match_submits_complement_witness :
  run_pruning_for_conv2d_layer toy (pruner 2) conv4 world0 =
    (Ok 2,
     {| layer_weights := weights0;
        rng := 2%nat;
        stdout := [];
        jobs := [delete_channels conv4 [2; 3]%nat] |}) ∧
  (list_to_set [2; 3]%nat : gset nat) = set_seq 0 4 ∖ list_to_set [0; 1]%nat.
Proof.
  apply (exact_match_submits_complement toy (pruner 2) conv4 world0
           {| layer_weights := weights0; rng := 2%nat; stdout := []; jobs := [] |}
           {| nb_of_clusters := 2; nb_channels := 4;
              channel_indices_to_prune := [2; 3]%nat;
              channel_indices_to_keep := [0; 1]%nat |}
           toy_externals_ok).
  - reflexivity.
  - reflexivity.
Defined.

(** Three clusters out of four channels: channel 3 and two of the three
    representatives. *)
Lemma shortfall_sacrifices_witness :
  ∃ channels w2,
    run_pruning_for_conv2d_layer toy (pruner 3) conv4 world0 = (Ok 3, w2) ∧
    jobs w2 = jobs world0 ++ [delete_channels conv4 channels] ∧
    (∀ c, c ∈ [3%nat] → c ∈ channels) ∧
    Z.of_nat (length (filter (λ c, c ∈ [0; 1; 2]%nat) channels)) = 3 - Z.of_nat 1.
Proof.
  apply (shortfall_sacrifices toy (pruner 3) conv4 world0
           {| layer_weights := weights0; rng := 2%nat; stdout := []; jobs := [] |}
           {| nb_of_clusters := 3; nb_channels := 4;
              channel_indices_to_prune := [3%nat];
              channel_indices_to_keep := [0; 1; 2]%nat |}
           toy_externals_ok).
  - reflexivity.
  - simpl. lia.
Defined.

(** Four clusters out of four channels. *)
Lemma all_channels_when_count_is_n_witness :
  ∃ channels w2,
    run_pruning_for_conv2d_layer toy (pruner 4) conv4 world0 = (Ok 4, w2) ∧
    jobs w2 = jobs world0 ++ [delete_channels conv4 channels] ∧
    channels ≡ₚ seq 0 4.
Proof.
  apply (all_channels_when_count_is_n toy (pruner 4) conv4 world0
           {| layer_weights := weights0; rng := 2%nat; stdout := []; jobs := [] |}
           {| nb_of_clusters := 4; nb_channels := 4;
              channel_indices_to_prune := [];
              channel_indices_to_keep := [0; 1; 2; 3]%nat |}
           toy_externals_ok).
  - reflexivity.
  - reflexivity.
Defined.

Lemma survivors_count_witness :
  ∃ channels w2,
    run_pruning_for_conv2d_layer toy (pruner 3) conv4 world0 = (Ok 3, w2) ∧
    jobs w2 = jobs world0 ++ [delete_channels conv4 channels] ∧
    length (filter (λ c, c ∉ channels) (seq 0 4)) = (4 - Z.to_nat 3)%nat.
Proof.
  apply (survivors_count toy (pruner 3) conv4 world0
           {| layer_weights := weights0; rng := 2%nat; stdout := []; jobs := [] |}
           {| nb_of_clusters := 3; nb_channels := 4;
              channel_indices_to_prune := [3%nat];
              channel_indices_to_keep := [0; 1; 2]%nat |}
           toy_externals_ok).
  - reflexivity.
  - simpl. lia.
Defined.

Lemma representatives_bounded_witness :
  ∃ x g centers g',
    kmeans_fit toy 3 x g = (Some centers, g') ∧
    (1 ≤ length [0; 1; 2]%nat ≤ length centers)%nat ∧
    (length [3%nat] < 4)%nat.
Proof.
  apply (representatives_bounded toy (pruner 3) conv4 world0
           {| layer_weights := weights0; rng := 2%nat; stdout := []; jobs := [] |}
           {| nb_of_clusters := 3; nb_channels := 4;
              channel_indices_to_prune := [3%nat];
              channel_indices_to_keep := [0; 1; 2]%nat |}
           toy_externals_ok).
  reflexivity.
Defined.

(** The 1x2x1x2 kernel: rows [1; 3] and [2; 4]. *)
Lemma flatten_filters_rearranges_witness :
  ∃ x,
    flatten_filters kernel22 2 = Ok x ∧
    length x = 2%nat ∧
    Forall (λ row, length row = (1 * 2 * 1)%nat) x ∧
    (∀ c p, (c < 2)%nat → (p < 1 * 2 * 1)%nat →
            x !! c ≫= (λ row, row !! p) = data kernel22 !! (p * 2 + c)%nat) ∧
    concat x ≡ₚ data kernel22.
Proof.
  apply (flatten_filters_rearranges kernel22 1 2 1 2).
  - reflexivity.
  - lia.
  - reflexivity.
Defined.

(** * Violations of the preconditions, and the local array *)

Section Reach.

Context {F G : Type} (E : externals F G).

(** On a 4-D kernel the selection of lines 29-51 raises only on lines
    38-45: in the reshape, the fuzz, the fit or the nearest-row search. *)
Lemma select_channels_Raise_kernel (self : KMeansFilterPruning F) (l : layer)
    (w w1 : world F G) (n : nat) (e : exn) :
  kernel_of w l n →
  select_channels E self l w = (Raise e, w1) →
  e = ValueError_reshape ∨ e = Raised_by_apply_fuzz ∨ e = Raised_by_fit ∨
  e = Raised_by_argmin.
Proof.
  intros (a & rest & h & wd & ic & Hw & Hshape).
  unfold select_channels, mbind, M_bind, bind, get_weights, lift, apply_fuzz_to, draw,
    mret, M_ret, ret.
  rewrite Hw, Hshape. intros H.
  destruct (flatten_filters a n) as [x|e'] eqn:Hx.
  2:{ unfold flatten_filters in Hx. case_decide; [|done].
      injection Hx as <-. injection H as <- _. auto. }
  destruct (_apply_fuzz E x (rng w)) as [[x'|] g1]; [|injection H as <- _; auto].
  cbn [layer_weights rng stdout jobs] in H.
  destruct (kmeans_fit E _ x' g1) as [[centers|] g2]; [|injection H as <- _; auto].
  destruct (pairwise_distances_argmin E centers x') as [closest|e'] eqn:Hmin; [done|].
  injection H as <- _.
  unfold pairwise_distances_argmin in Hmin.
  destruct centers, x'; try done; injection Hmin as <-; auto.
Qed.

(** C2, as the code has it.  A kernel that is not 4-D is rejected by the
    unpacking of its shape on line 30, with the world untouched.  The
    cluster count is checked nowhere: on a 4-D kernel with [n] output
    channels a count [k < 0] or [k > n] goes to the fuzz and to the fit as
    it is.  The call then never returns and queues no job, but where it
    raises depends on the collaborators: on lines 38-45 when the reshape,
    the fuzz, the fit or the nearest-row search raises, and otherwise after
    the clustering, by the count guard of line 67 when [k < 0] and by the
    [IndexError] of line 64 when [k > n].  Under scikit-learn's own check
    of the count ([kmeans_ok]) the error comes from the fit of line 41 at
    the latest, that is from the clustering call itself. *)
Theorem violations_raise (self : KMeansFilterPruning F) (l : layer) (w : world F G) :
  externals_ok E →
  (∀ a rest, layer_weights w l = a :: rest → length (shape a) ≠ 4%nat →
     run_pruning_for_conv2d_layer E self l w = (Raise ValueError_unpack, w)) ∧
  (∀ n, kernel_of w l n →
     let k := (_calculate_number_of_channels_to_keep E (_clustering_factor self) n).1 in
     k < 0 ∨ Z.of_nat n < k →
     ∃ e w',
       run_pruning_for_conv2d_layer E self l w = (Raise e, w') ∧
       jobs w' = jobs w ∧
       layer_weights w' = layer_weights w ∧
       (e = ValueError_reshape ∨ e = Raised_by_apply_fuzz ∨ e = Raised_by_fit ∨
        e = Raised_by_argmin ∨
        (k < 0 ∧ ∃ msg, e = ValueError_count msg) ∨
        (Z.of_nat n < k ∧ e = IndexError_keep)) ∧
       (kmeans_ok E →
        e = ValueError_reshape ∨ e = Raised_by_apply_fuzz ∨ e = Raised_by_fit)).
Proof.
  intros HE. split.
  - intros a rest Hw Hshape.
    apply run_select_Raise.
    unfold select_channels, mbind, M_bind, bind, get_weights, lift. rewrite Hw.
    by destruct (shape a) as [|h [|wd [|ic [|n [|? ?]]]]].
  - intros n Hker k Hk.
    pose proof (run_world E self l w) as (Hweights & _ & Hjobs).
    destruct (select_channels E self l w) as [[s|e] w1] eqn:Hs.
    + destruct (select_channels_kernel E _ _ _ _ _ Hs) as [Hker' Hk'].
      pose proof (kernel_of_inj _ _ _ _ Hker' Hker) as Hn.
      rewrite Hn in Hk'. fold k in Hk'.
      assert (kmeans_ok E → False) as Hno.
      { intros HK. pose proof (select_channels_range E _ _ _ _ _ HE HK Hs). lia. }
      destruct Hk as [Hneg|Habove].
      * pose proof (run_select_negative E _ _ _ _ _ Hs) as Hfire.
        rewrite Hk' in Hfire. specialize (Hfire Hneg).
        destruct (run_pruning_for_conv2d_layer E self l w) as [[r|e] w']; [done|].
        destruct e; try done. simpl in Hjobs, Hweights.
        eexists _, w'. split_and!; [done|done|done| |by intros ?%Hno].
        do 4 right; left. split; [done|by eexists].
      * pose proof (run_select_above E _ _ _ _ _ HE Hs) as Hraise.
        rewrite Hk', Hn in Hraise. specialize (Hraise Habove).
        destruct (run_pruning_for_conv2d_layer E self l w) as [[r|e] w']; [done|].
        simpl in Hraise, Hjobs, Hweights. injection Hraise as ->.
        eexists _, w'. split_and!; [done|done|done| |by intros ?%Hno].
        by do 5 right.
    + rewrite (run_select_Raise E _ _ _ _ _ Hs) in Hjobs, Hweights |- *.
      simpl in Hjobs, Hweights.
      pose proof (select_channels_Raise_kernel _ _ _ _ _ _ Hker Hs) as He.
      exists e, w1. split_and!; [done|done|done|tauto|].
      intros HK.
      destruct (select_channels_refused E self l w n Hker)
        as (e' & w1' & Hs' & He' & _).
      * intros x x' g1 c g2 Hx Hfuzz Hfit.
        apply (apply_fuzz_rows E HE) in Hfuzz. apply HK in Hfit. fold k in Hfit. lia.
      * rewrite Hs in Hs'. injection Hs' as <- _.
        destruct He as [->|[->|[->| ->]]]; auto. done.
Qed.


End Reach.

(** A 3-D kernel; five clusters asked of four channels, with a fit that
    lets them through. *)
Lemma violations_raise_witness :
  run_pruning_for_conv2d_layer toy (pruner 2) conv3d world0
    = (Raise ValueError_unpack, world0) ∧
  ∃ e w',
    run_pruning_for_conv2d_layer lax (pruner 5) conv4 world0 = (Raise e, w') ∧
    jobs w' = jobs world0 ∧
    layer_weights w' = layer_weights world0 ∧
    (e = ValueError_reshape ∨ e = Raised_by_apply_fuzz ∨ e = Raised_by_fit ∨
     e = Raised_by_argmin ∨
     (5 < 0 ∧ ∃ msg, e = ValueError_count msg) ∨
     (Z.of_nat 4 < 5 ∧ e = IndexError_keep)) ∧
    (kmeans_ok lax →
     e = ValueError_reshape ∨ e = Raised_by_apply_fuzz ∨ e = Raised_by_fit).
Proof.
  split.
  - apply (proj1 (violations_raise toy (pruner 2) conv3d world0 toy_externals_ok)
             kernel3d []).
    + reflexivity.
    + simpl. lia.
  - apply (proj2 (violations_raise lax (pruner 5) conv4 world0 lax_externals_ok)
             4%nat kernel_of_conv4).
    simpl. lia.
Defined.

(** C2, as stated, fails: five clusters asked of four channels.  With a fit
    that refuses them the error is the fit's own, raised on line 41 after
    the fuzz has drawn from the random source; with a fit that lets them
    through the call raises only on line 64, after the clustering and the
    two messages of the fill branch. *)
Lemma violations_reach_clustering :
  run_pruning_for_conv2d_layer toy (pruner 5) conv4 world0 =
    (Raise Raised_by_fit,
     {| layer_weights := weights0; rng := 1%nat; stdout := []; jobs := [] |}) ∧
  run_pruning_for_conv2d_layer lax (pruner 5) conv4 world0 =
    (Raise IndexError_keep,
     {| layer_weights := weights0; rng := 3%nat;
        stdout := [msg_less; msg_adding 2]; jobs := [] |}).
Proof. split; reflexivity. Qed.


